(** * Redis-backed session middleware (fastapi-app/app/session.py)

    A shallow embedding of [RedisSessionMiddleware] and the properties of
    its cookie / store protocol.  The middleware is ASGI glue around three
    libraries (itsdangerous, redis, json) and the operating system's
    entropy; those are interfaces here, the middleware's own control flow
    is transcribed statement by statement. *)

From Stdlib Require Import Ascii String.
From stdpp Require Import gmap strings list pretty.

Local Open Scope Z_scope.

(** ** Python values and exceptions *)

(** The exceptions that can travel through the module.  All of them derive
    from Python's [Exception], so both handlers of the module
    ([except (BadSignature, Exception)] and [except Exception]) catch each
    of them. *)
Inductive exn : Type :=
| BadSignature
| StoreError
| JSONDecodeError
| TypeError
| KeyError.

Inductive result (A : Type) : Type :=
| Ok (a : A)
| Raise (e : exn).
Arguments Ok {A} a.
Arguments Raise {A} e.

#[local] Set Warnings "-register-all".

(** The values a session can hold: what [json.loads] produces and what the
    route handlers put into [request.session] (numbers are integers);
    [bytes] stands for the values that [json.dumps] does not take. *)
Inductive pyval : Type :=
| PNone
| PBool (b : bool)
| PInt (n : Z)
| PStr (s : string)
| PList (l : list pyval)
| PDict (d : list (string * pyval))
| PBytes (b : string).

Definition is_nil {A} (l : list A) : bool :=
  match l with [] => true | _ => false end.

(** [bool(s)] for a [str]. *)
Definition str_truthy (s : string) : bool :=
  match s with EmptyString => false | String _ _ => true end.

(** [bool(v)]: the test behind [if session_data:]. *)
Definition truthy (v : pyval) : bool :=
  match v with
  | PNone => false
  | PBool b => b
  | PInt n => negb (n =? 0)
  | PStr s => str_truthy s
  | PList l => negb (is_nil l)
  | PDict d => negb (is_nil d)
  | PBytes b => str_truthy b
  end.

(** [{}] *)
Definition empty_dict : pyval := PDict [].

(** ** Module constants *)

Definition SESSION_COOKIE : string := "session".
Definition SESSION_TTL : Z := 14 * 24 * 3600.

(** ** The store and the world outside the process *)

(** One call on the Redis client, with its arguments. *)
Inductive store_op : Type :=
| OpGet (key : string)
| OpSetex (key : string) (ttl : Z) (value : string)
| OpDelete (key : string).

(** What the module is linked against and runs in: the [json] module,
    [uuid.uuid4] (its [n]-th call returns [uuid4_at n]) and the
    availability of the store (a call [op] fails with a connection error
    exactly when [store_fails op]). *)
Class Platform : Type := {
  json_dumps : pyval → result string;
  json_loads : string → result pyval;
  uuid4_at : nat → string;
  store_fails : store_op → bool;
}.

(** Mutable state that outlives a request: the middleware's lazily created
    client ([self._redis is not None]), the contents of the Redis database
    (value and time-to-live per key), the calls made on the client so far,
    and the number of identifiers drawn from [uuid4]. *)
Record World : Type := mkWorld {
  redis_client : bool;
  redis_db : gmap string (string * Z);
  redis_log : list store_op;
  uuid_calls : nat;
}.

Definition set_client (b : bool) (w : World) : World :=
  mkWorld b (redis_db w) (redis_log w) (uuid_calls w).
Definition set_db (db : gmap string (string * Z)) (w : World) : World :=
  mkWorld (redis_client w) db (redis_log w) (uuid_calls w).
Definition record_op (op : store_op) (w : World) : World :=
  mkWorld (redis_client w) (redis_db w) (redis_log w ++ [op]) (uuid_calls w).
Definition bump_uuid (w : World) : World :=
  mkWorld (redis_client w) (redis_db w) (redis_log w) (S (uuid_calls w)).

(** ** Computations: state passing with exceptions

    A computation runs on a world and either returns or raises; the world
    it leaves behind is kept in both cases (Python does not roll back side
    effects when an exception unwinds). *)
Definition M (A : Type) : Type := World → result A * World.

Definition ret {A} (a : A) : M A := λ w, (Ok a, w).

Definition bind {A B} (m : M A) (k : A → M B) : M B :=
  λ w, match m w with
       | (Ok a, w') => k a w'
       | (Raise e, w') => (Raise e, w')
       end.

(** A library call without side effects that may raise. *)
Definition lift {A} (r : result A) : M A := λ w, (r, w).

(** [try: body / except Exception: handler] *)
Definition try_except {A} (body : M A) (handler : exn → M A) : M A :=
  λ w, match body w with
       | (Ok a, w') => (Ok a, w')
       | (Raise e, w') => handler e w'
       end.

Declare Scope py_scope.
Delimit Scope py_scope with py.
Notation "x <- m ;; k" := (bind m (λ x, k))
  (at level 100, m at next level, right associativity) : py_scope.
Notation "m ;;; k" := (bind m (λ _, k))
  (at level 100, right associativity) : py_scope.
Local Open Scope py_scope.

(** ** ASGI data *)

(** The connection scope: its ["type"], the cookies of the request as
    [HTTPConnection.cookies] presents them, and the ["session"] entry
    (absent until the middleware attaches it). *)
Record Scope : Type := mkScope {
  scope_type : string;
  scope_cookies : gmap string string;
  scope_session : option pyval;
}.

Definition attach_session (d : pyval) (s : Scope) : Scope :=
  mkScope (scope_type s) (scope_cookies s) (Some d).

(** An outbound ASGI message: its ["type"], its raw header list and the
    rest of its entries. *)
Record Message : Type := mkMessage {
  msg_type : string;
  msg_headers : list (string * string);
  msg_rest : string;
}.

(** [MutableHeaders(scope=message).append(key, value)] *)
Definition headers_append (key value : string) (m : Message) : Message :=
  mkMessage (msg_type m) (msg_headers m ++ [(key, value)]) (msg_rest m).

(** What the wrapped application does with the connection, as seen from
    the middleware: it leaves [scope["session"]] in some state
    ([Assign None] stands for a deleted entry) and it calls [send]. *)
Inductive Event : Type :=
| Assign (s : option pyval)
| Send (m : Message).

Definition ASGIApp : Type := Scope → list Event.

Definition sent (evs : list Event) : list Message :=
  omap (λ e, match e with Send m => Some m | Assign _ => None end) evs.

(** ** The signer interface ([itsdangerous.URLSafeSerializer]) *)
Record Serializer : Type := mkSerializer {
  dumps : string → string;
  loads : string → result string;
}.

(** ** RedisSessionMiddleware *)

Record RedisSessionMiddleware : Type := mkMiddleware {
  signer : Serializer;
  session_cookie : string;
  max_age : Z;
  https_only : bool;
}.

Section Middleware.
Context {P : Platform}.

(** [_get_redis]: create the client on first use.  The calls on the
    client below are entered in the log whether they go through or not;
    a call that fails raises and leaves the database as it was. *)
Definition _get_redis : M unit :=
  λ w, (Ok tt, set_client true w).

Definition redis_get (key : string) : M (option string) :=
  λ w, let w' := record_op (OpGet key) w in
       if store_fails (OpGet key) then (Raise StoreError, w')
       else (Ok (fst <$> redis_db w !! key), w').

Definition redis_setex (key : string) (ttl : Z) (value : string) : M unit :=
  λ w, let w' := record_op (OpSetex key ttl value) w in
       if store_fails (OpSetex key ttl value) then (Raise StoreError, w')
       else (Ok tt, set_db (<[key := (value, ttl)]> (redis_db w)) w').

Definition redis_delete (key : string) : M unit :=
  λ w, let w' := record_op (OpDelete key) w in
       if store_fails (OpDelete key) then (Raise StoreError, w')
       else (Ok tt, set_db (delete key (redis_db w)) w').

(** [str(uuid.uuid4())] *)
Definition uuid4 : M string :=
  λ w, (Ok (uuid4_at (uuid_calls w)), bump_uuid w).

(** [f"session:{session_id}"] *)
Definition session_key (session_id : string) : string :=
  "session:" +:+ session_id.

(** Lines 49-62 of [__call__]: the pair [(session_id, initial_data)]
    with which the request proceeds.  [initial_data] is assigned by the
    last statement of the [try] block, so on every path through the
    handler it still holds [{}]. *)
Definition load_session (self : RedisSessionMiddleware) (scope : Scope)
  : M (option string * pyval) :=
  match scope_cookies scope !! session_cookie self with
  | Some cookie_value =>
      if str_truthy cookie_value then
        try_except
          (session_id <- lift (loads (signer self) cookie_value) ;;
           _get_redis ;;;
           raw <- redis_get (session_key session_id) ;;
           match raw with
           | Some raw_str =>
               if str_truthy raw_str then
                 initial_data <- lift (json_loads raw_str) ;;
                 ret (Some session_id, initial_data)
               else ret (Some session_id, empty_dict)
           | None => ret (Some session_id, empty_dict)
           end)
          (λ _, ret (None, empty_dict))
      else ret (None, empty_dict)
  | None => ret (None, empty_dict)
  end.

(** The cookie built on lines 91-97. *)
Definition issue_cookie (self : RedisSessionMiddleware) (new_id : string)
  : string :=
  let signed := dumps (signer self) new_id in
  let cookie :=
    session_cookie self +:+ "=" +:+ signed +:+ "; Path=/; "
    +:+ "HttpOnly; Max-Age=" +:+ pretty (max_age self) +:+ "; SameSite=lax" in
  if https_only self then cookie +:+ "; Secure" else cookie.

(** The cookie built on lines 109-110. *)
Definition clear_cookie (self : RedisSessionMiddleware) : string :=
  session_cookie self +:+ "=; Path=/; " +:+ "HttpOnly; Max-Age=0; SameSite=lax".

(** [send_wrapper], up to the final [await send(message)]: the message
    that is handed to [send].  [session_id] is the closure variable,
    [scope_session] the state of [scope["session"]] at the time of the
    call.  [message] carries its header list; [send_wrapper_asgi] below
    is the wrapper on a message that may lack it. *)
Definition send_wrapper (self : RedisSessionMiddleware)
    (session_id : option string) (scope_session : option pyval)
    (message : Message) : M Message :=
  if String.eqb (msg_type message) "http.response.start" then
    let session_data := default empty_dict scope_session in
    if truthy session_data then
      new_id <- match session_id with
                | None => uuid4
                | Some sid => ret sid
                end ;;
      try_except
        (_get_redis ;;;
         payload <- lift (json_dumps session_data) ;;
         redis_setex (session_key new_id) (max_age self) payload)
        (λ _, ret tt) ;;;
      ret (headers_append "set-cookie" (issue_cookie self new_id) message)
    else
      match session_id with
      | Some sid =>
          try_except
            (_get_redis ;;; redis_delete (session_key sid))
            (λ _, ret tt) ;;;
          ret (headers_append "set-cookie" (clear_cookie self) message)
      | None => ret message
      end
  else ret message.

(** The application running against [send_wrapper]: [cur] follows
    [scope["session"]], every [Send] goes through the wrapper. *)
Fixpoint drive (self : RedisSessionMiddleware) (session_id : option string)
    (cur : option pyval) (evs : list Event) : M (list Message) :=
  match evs with
  | [] => ret []
  | Assign s :: rest => drive self session_id s rest
  | Send m :: rest =>
      m' <- send_wrapper self session_id cur m ;;
      ms <- drive self session_id cur rest ;;
      ret (m' :: ms)
  end.

Definition handled (scope : Scope) : bool :=
  bool_decide (scope_type scope ∈ ["http"; "websocket"]).

(** [__call__]: the messages that reach the server's [send]. *)
Definition call (self : RedisSessionMiddleware) (scope : Scope)
    (app : ASGIApp) : M (list Message) :=
  if negb (handled scope) then ret (sent (app scope))
  else
    start <- load_session self scope ;;
    let '(session_id, initial_data) := start in
    drive self session_id (Some initial_data)
          (app (attach_session initial_data scope)).

End Middleware.

(** ** Messages without a header list

    ASGI makes the ["headers"] entry of an outbound message optional.
    [Message] above is a message that carries the entry, as every
    response built by Starlette and FastAPI does; [AsgiMessage] is a
    message as any application may hand it to [send].  On line 70
    [MutableHeaders(scope=message)] reads [message["headers"]], outside
    both [try] blocks and before anything else is done with the
    message. *)
Record AsgiMessage : Type := mkAsgiMessage {
  asgi_type : string;
  asgi_headers : option (list (string * string));
  asgi_rest : string;
}.

Definition to_asgi (m : Message) : AsgiMessage :=
  mkAsgiMessage (msg_type m) (Some (msg_headers m)) (msg_rest m).

Inductive AsgiEvent : Type :=
| AsgiAssign (s : option pyval)
| AsgiSend (m : AsgiMessage).

Definition to_asgi_event (e : Event) : AsgiEvent :=
  match e with
  | Assign s => AsgiAssign s
  | Send m => AsgiSend (to_asgi m)
  end.

Definition asgi_sent (evs : list AsgiEvent) : list AsgiMessage :=
  omap (λ e, match e with AsgiSend m => Some m | AsgiAssign _ => None end) evs.

Section AsgiMiddleware.
Context {P : Platform}.

(** [send_wrapper] on any message: a [http.response.start] without
    ["headers"] raises [KeyError] on line 70; with the entry the wrapper
    goes on as [send_wrapper] above; other messages are handed on. *)
Definition send_wrapper_asgi (self : RedisSessionMiddleware)
    (session_id : option string) (scope_session : option pyval)
    (message : AsgiMessage) : M AsgiMessage :=
  if String.eqb (asgi_type message) "http.response.start" then
    match asgi_headers message with
    | None => lift (Raise KeyError)
    | Some headers =>
        m' <- send_wrapper self session_id scope_session
                (mkMessage (asgi_type message) headers (asgi_rest message)) ;;
        ret (to_asgi m')
    end
  else ret message.

(** The application against the wrapper; an exception raised by [send]
    that the application does not catch ends it. *)
Fixpoint drive_asgi (self : RedisSessionMiddleware)
    (session_id : option string) (cur : option pyval)
    (evs : list AsgiEvent) : M (list AsgiMessage) :=
  match evs with
  | [] => ret []
  | AsgiAssign s :: rest => drive_asgi self session_id s rest
  | AsgiSend m :: rest =>
      m' <- send_wrapper_asgi self session_id cur m ;;
      ms <- drive_asgi self session_id cur rest ;;
      ret (m' :: ms)
  end.

(** [__call__] for such an application. *)
Definition call_asgi (self : RedisSessionMiddleware) (scope : Scope)
    (app : Scope → list AsgiEvent) : M (list AsgiMessage) :=
  if negb (handled scope) then ret (asgi_sent (app scope))
  else
    start <- load_session self scope ;;
    let '(session_id, initial_data) := start in
    drive_asgi self session_id (Some initial_data)
               (app (attach_session initial_data scope)).

End AsgiMiddleware.

(** A [http.response.start] carries its header list. *)
Definition start_has_headers (m : AsgiMessage) : bool :=
  negb (String.eqb (asgi_type m) "http.response.start")
  || match asgi_headers m with Some _ => true | None => false end.

(** [m'] is [m] with headers added at the end, nothing else changed. *)
Definition asgi_forwarded (m m' : AsgiMessage) : Prop :=
  asgi_type m' = asgi_type m ∧ asgi_rest m' = asgi_rest m
  ∧ match asgi_headers m, asgi_headers m' with
    | Some hs, Some hs' => hs `prefix_of` hs'
    | None, None => True
    | _, _ => False
    end.

(** ** Reading a Set-Cookie header

    The observations used to state what a header says: its [name=value]
    pair and the list of its attributes. *)

Fixpoint split_on (sep : ascii) (s : string) : list string :=
  match s with
  | EmptyString => [EmptyString]
  | String c s' =>
      if Ascii.eqb c sep then EmptyString :: split_on sep s'
      else match split_on sep s' with
           | seg :: segs => String c seg :: segs
           | [] => [String c EmptyString]
           end
  end.

Fixpoint lstrip (s : string) : string :=
  match s with
  | String " " s' => lstrip s'
  | _ => s
  end.

Definition cookie_pair (header : string) : string :=
  hd EmptyString (split_on ";" header).

Definition cookie_attrs (header : string) : list string :=
  lstrip <$> tail (split_on ";" header).

Definition has_attr (a header : string) : bool :=
  bool_decide (a ∈ cookie_attrs header).

(** The Set-Cookie values among the headers of a message. *)
Definition set_cookies (m : Message) : list string :=
  snd <$> filter (λ h, h.1 = "set-cookie") (msg_headers m).

(** ** The Identifier Signer *)

(** Splitting at the last occurrence of a separator. *)
Fixpoint rsplit (sep : ascii) (s : string) : option (string * string) :=
  match s with
  | EmptyString => None
  | String c s' =>
      match rsplit sep s' with
      | Some (a, b) => Some (String c a, b)
      | None => if Ascii.eqb c sep then Some (EmptyString, s') else None
      end
  end.

Definition urlsafe_char (c : ascii) : bool :=
  let n := nat_of_ascii c in
  ((65 <=? n) && (n <=? 90) || (97 <=? n) && (n <=? 122)
   || (48 <=? n) && (n <=? 57) || (n =? 45) || (n =? 95))%nat.

Fixpoint urlsafe (s : string) : bool :=
  match s with
  | EmptyString => true
  | String c s' => urlsafe_char c && urlsafe s'
  end.

Section Signer.
(** The keyed message authentication function: secret and message to
    tag. *)
Variable mac : string → string → string.
Variable secret_key : string.

(** Modelled from the spec: [URLSafeSerializer.dumps] of itsdangerous,
    which is not part of the repository.  The signed cookie value is
    "the identifier plus a message authentication tag"; the two parts
    are joined by a separator outside the URL-safe alphabet of the
    tag. *)
Definition sign (identifier : string) : string :=
  identifier +:+ String "." (mac secret_key identifier).

(** Modelled from the spec: [URLSafeSerializer.loads] of itsdangerous.
    "Verification must fail closed: any malformed, truncated, or
    tag-mismatched input yields an explicit invalid signature outcome":
    a value without separator is malformed, a value whose tag is not the
    tag of its payload is mismatched. *)
Definition verify (encoded_value : string) : result string :=
  match rsplit "." encoded_value with
  | None => Raise BadSignature
  | Some (payload, tag) =>
      if String.eqb tag (mac secret_key payload) then Ok payload
      else Raise BadSignature
  end.

(** [URLSafeSerializer(secret_key)] *)
Definition URLSafeSerializer : Serializer :=
  mkSerializer sign verify.
End Signer.

(** [RedisSessionMiddleware.__init__]: a keyword argument that is not
    given ([None] here) takes its default. *)
Definition init (mac : string → string → string) (secret_key : string)
    (session_cookie : option string) (max_age : option Z)
    (https_only : option bool) : RedisSessionMiddleware :=
  mkMiddleware (URLSafeSerializer mac secret_key)
               (default SESSION_COOKIE session_cookie)
               (default SESSION_TTL max_age)
               (default false https_only).

(** ** Stand-ins used by the examples

    A keyed checksum in place of the HMAC, a table in place of the [json]
    module, a counter in place of the random source.  They only serve to
    run the definitions above on concrete requests. *)
Module Fixture.

Definition alphabet : list ascii :=
  list_ascii_of_string
    "ABCDEFGHIJKLMNOPQRSTUVWXYZabcdefghijklmnopqrstuvwxyz0123456789-_".

Definition checksum (s : string) : nat :=
  foldr (λ c acc, (nat_of_ascii c + 3 * acc) `mod` 4096)%nat 7%nat
        (list_ascii_of_string s).

Definition digit64 (n : nat) : ascii :=
  nth (n `mod` 64)%nat alphabet "A"%char.

(** A two-character tag over the URL-safe alphabet. *)
Definition toy_mac (secret message : string) : string :=
  let n := checksum (secret +:+ String ":" message) in
  String (digit64 (n / 64)) (String (digit64 n) EmptyString).

Definition secret : string := "s3cr3t".

Definition toy_signer : Serializer := URLSafeSerializer toy_mac secret.

Definition dq : string := String (ascii_of_nat 34) EmptyString.

(** [{"user": "alice"}] and its JSON text. *)
Definition alice : pyval := PDict [("user", PStr "alice")].
Definition alice_json : string :=
  "{" +:+ dq +:+ "user" +:+ dq +:+ ": " +:+ dq +:+ "alice" +:+ dq +:+ "}".

Definition table_dumps (v : pyval) : result string :=
  match v with
  | PDict [] => Ok "{}"
  | PDict [(k, PStr s)] =>
      if String.eqb k "user" && String.eqb s "alice" then Ok alice_json
      else Raise TypeError
  | _ => Raise TypeError
  end.

Definition table_loads (s : string) : result pyval :=
  if String.eqb s "{}" then Ok (PDict [])
  else if String.eqb s alice_json then Ok alice
  else Raise JSONDecodeError.

Definition counter_uuid (n : nat) : string := "id-" +:+ pretty n.

(** The store answers every call. *)
Definition store_up : Platform :=
  {| json_dumps := table_dumps; json_loads := table_loads;
     uuid4_at := counter_uuid; store_fails := λ _, false |}.

(** The store fails every call. *)
Definition store_down : Platform :=
  {| json_dumps := table_dumps; json_loads := table_loads;
     uuid4_at := counter_uuid; store_fails := λ _, true |}.

(** Reads fail, writes and deletes go through. *)
Definition reads_fail : Platform :=
  {| json_dumps := table_dumps; json_loads := table_loads;
     uuid4_at := counter_uuid;
     store_fails := λ op, match op with OpGet _ => true | _ => false end |}.

(** [RedisSessionMiddleware(app, secret_key)] with the defaults of
    [__init__]. *)
Definition default_mw : RedisSessionMiddleware :=
  init toy_mac secret None None None.

(** The same with [https_only=True]. *)
Definition https_mw : RedisSessionMiddleware :=
  init toy_mac secret None None (Some true).

Definition world0 : World := mkWorld false ∅ [] 0.

Definition http_scope (cookies : gmap string string) : Scope :=
  mkScope "http" cookies None.

Definition response_start : Message :=
  mkMessage "http.response.start" [("content-type", "text/html")] "200".
Definition response_body : Message :=
  mkMessage "http.response.body" [] "<html/>".

(** A handler that leaves the session as [ctx] and responds. *)
Definition responds_with (ctx : pyval) : ASGIApp :=
  λ _, [Assign (Some ctx); Send response_start; Send response_body].

(** A handler that does not touch the session. *)
Definition reads_only : ASGIApp :=
  λ _, [Send response_start; Send response_body].

Definition cookie_abc : string := sign toy_mac secret "abc".

(** The cookie value for the first identifier [counter_uuid] hands out. *)
Definition cookie_id0 : string := sign toy_mac secret "id-0".

(** A handler that empties the session and responds. *)
Definition logs_out : ASGIApp :=
  λ _, [Assign (Some empty_dict); Send response_start; Send response_body].

(** A websocket connection presenting [cookie_abc], and an application
    that accepts it, puts alice into the session and sends a frame. *)
Definition ws_scope : Scope :=
  mkScope "websocket" {[ "session" := cookie_abc ]} None.

Definition ws_accept : Message := mkMessage "websocket.accept" [] "".
Definition ws_frame : Message := mkMessage "websocket.send" [] "hello".

Definition ws_app : ASGIApp :=
  λ _, [Send ws_accept; Assign (Some alice); Send ws_frame].

(** A request presenting [cookie_abc]. *)
Definition abc_scope : Scope := http_scope {[ "session" := cookie_abc ]}.

(** An application that answers with a [http.response.start] that has no
    ["headers"] entry. *)
Definition bare_start : AsgiMessage :=
  mkAsgiMessage "http.response.start" None "204".

Definition bare_app : Scope → list AsgiEvent :=
  λ _, [AsgiSend bare_start].

(** The database holds alice's record under [session:abc]. *)
Definition alice_world : World :=
  mkWorld false {[ "session:abc" := (alice_json, SESSION_TTL) ]} [] 0.

(** The database holds text that is not JSON under [session:abc]. *)
Definition corrupt_world : World :=
  mkWorld false {[ "session:abc" := ("{not json", SESSION_TTL) ]} [] 0.

End Fixture.

(** ** Vocabulary of the statements *)

(** [c] occurs in [s]. *)
Fixpoint occurs (c : ascii) (s : string) : bool :=
  match s with
  | EmptyString => false
  | String c' s' => Ascii.eqb c' c || occurs c s'
  end.

(** [m'] is [m] with headers added at the end, nothing else changed. *)
Definition forwarded (m m' : Message) : Prop :=
  msg_type m' = msg_type m ∧ msg_rest m' = msg_rest m
  ∧ msg_headers m `prefix_of` msg_headers m'.

(** The context is empty at every [http.response.start] the application
    sends. *)
Fixpoint empty_at_starts (cur : option pyval) (evs : list Event) : bool :=
  match evs with
  | [] => true
  | Assign s :: rest => empty_at_starts s rest
  | Send m :: rest =>
      (negb (String.eqb (msg_type m) "http.response.start")
       || negb (truthy (default empty_dict cur)))
      && empty_at_starts cur rest
  end.

(** Two worlds that differ at most in the call log and in whether the
    client exists yet. *)
Definition same_store (w1 w2 : World) : Prop :=
  redis_db w1 = redis_db w2 ∧ uuid_calls w1 = uuid_calls w2.

(** The same connection without the cookie named [name]. *)
Definition without_cookie (name : string) (s : Scope) : Scope :=
  mkScope (scope_type s) (delete name (scope_cookies s)) (scope_session s).

(** The world after [_get_redis] and one call [op] on the client. *)
Definition after_call (op : store_op) (w0 : World) : World :=
  record_op op (set_client true w0).

Section Outcomes.
Context {P : Platform}.

(** The identifier the wrapper writes under, and the world after it has
    been chosen. *)
Definition target_id (session_id : option string) (w : World) : string :=
  match session_id with
  | None => uuid4_at (uuid_calls w)
  | Some sid => sid
  end.

Definition after_choice (session_id : option string) (w : World) : World :=
  match session_id with
  | None => bump_uuid w
  | Some _ => w
  end.

(** The world after one write [op] that turns the database into [db']
    when it goes through. *)
Definition after_write (op : store_op) (db' : gmap string (string * Z))
    (w : World) : World :=
  if store_fails op then after_call op w
  else set_db db' (after_call op w).

End Outcomes.

(** ** What the write path may do to the store *)

(** No record of the database is set to live longer than [ttl]. *)
Definition ttl_bounded (ttl : Z) (db : gmap string (string * Z)) : Prop :=
  ∀ key value t, db !! key = Some (value, t) → t ≤ ttl.

Section WriteShape.
Context {P : Platform}.

(** The calls [send_wrapper] can make for a request that proceeds with
    [session_id]: a [SETEX] of the serialisation of a non-empty context,
    with the configured time-to-live, under the key of the request's
    identifier (of some identifier when the request has none), or a [DEL]
    of the key of the request's identifier. *)
Definition write_shape (self : RedisSessionMiddleware)
    (session_id : option string) (op : store_op) : Prop :=
  match op with
  | OpGet _ => False
  | OpSetex key ttl value =>
      ttl = max_age self
      ∧ (∃ id, key = session_key id ∧ ∀ sid, session_id = Some sid → id = sid)
      ∧ ∃ ctx, truthy ctx = true ∧ json_dumps ctx = Ok value
  | OpDelete key => ∃ sid, session_id = Some sid ∧ key = session_key sid
  end.

End WriteShape.

(** ** The handlers behind the middleware

    [request.session] is the value the middleware attached to the scope;
    the dependencies (backend/app/dependencies.py) read it, the routes
    (the two auth_routes.py, backend/app/routes/student_routes.py) read
    and write it. *)
Module Handlers.

(** What a handler raises: FastAPI's [HTTPException], which is answered
    with that status, or an exception that no handler of the module
    catches. *)
Inductive error : Type :=
| HTTPException (status_code : Z) (detail : string)
| AttributeError
| TypeError
| OverflowError.

Inductive outcome (A : Type) : Type :=
| Done (a : A)
| Fail (e : error).
Arguments Done {A} a.
Arguments Fail {A} e.

Definition and_then {A B} (o : outcome A) (k : A → outcome B) : outcome B :=
  match o with
  | Done a => k a
  | Fail e => Fail e
  end.

Declare Scope handler_scope.
Delimit Scope handler_scope with handler.
Notation "'let*' x := o 'in' k" := (and_then o (λ x, k))
  (at level 10, x name, o at level 100, k at level 200) : handler_scope.
Local Open Scope handler_scope.

(** *** Dictionaries *)

(** The entry of [key] in the items of a dict (keys are unique). *)
Fixpoint assoc (key : string) (d : list (string * pyval)) : option pyval :=
  match d with
  | [] => None
  | (k, v) :: rest => if String.eqb k key then Some v else assoc key rest
  end.

(** The items after [d[key] = value]: the entry is replaced where it is,
    a new key goes to the end. *)
Fixpoint assoc_set (key : string) (value : pyval)
    (d : list (string * pyval)) : list (string * pyval) :=
  match d with
  | [] => [(key, value)]
  | (k, v) :: rest =>
      if String.eqb k key then (k, value) :: rest
      else (k, v) :: assoc_set key value rest
  end.

(** [o.get(key, dflt)]: only a dict has [get]. *)
Definition py_get (o : pyval) (key : string) (dflt : pyval) : outcome pyval :=
  match o with
  | PDict d => Done (default dflt (assoc key d))
  | _ => Fail AttributeError
  end.

(** [o[key] = value] with a [str] key: only a dict takes it. *)
Definition py_setitem (o : pyval) (key : string) (value : pyval)
  : outcome pyval :=
  match o with
  | PDict d => Done (PDict (assoc_set key value d))
  | _ => Fail TypeError
  end.

(** [o.clear()]: dicts and lists have it. *)
Definition py_clear (o : pyval) : outcome pyval :=
  match o with
  | PDict _ => Done (PDict [])
  | PList _ => Done (PList [])
  | _ => Fail AttributeError
  end.

(** [needle in hay] for two [str]. *)
Fixpoint substring (needle hay : string) : bool :=
  String.prefix needle hay
  || match hay with
     | EmptyString => false
     | String _ rest => substring needle rest
     end.

(** [v == s] for a [str] [s]. *)
Definition py_eq_str (s : string) (v : pyval) : bool :=
  match v with
  | PStr t => String.eqb t s
  | _ => false
  end.

(** [needle in o] for a [str] [needle]: an element of a list, a key of a
    dict, a substring of a [str]; the other values are not iterable. *)
Definition py_in (needle : string) (o : pyval) : outcome bool :=
  match o with
  | PList l => Done (existsb (py_eq_str needle) l)
  | PDict d => Done (match assoc needle d with Some _ => true | None => false end)
  | PStr s => Done (substring needle s)
  | _ => Fail TypeError
  end.

(** *** backend/app/dependencies.py *)

Definition get_current_user (session : pyval) : outcome pyval :=
  let* user := py_get session "user" PNone in
  if negb (truthy user) then Fail (HTTPException 401 "Not authenticated")
  else Done user.

Definition get_user_roles (session : pyval) : outcome pyval :=
  let* token := py_get session "token" (PDict []) in
  let* resource_access := py_get token "resource_access" (PDict []) in
  let* client_roles := py_get resource_access "student-app" (PDict []) in
  py_get client_roles "roles" (PList []).

Definition require_authenticated (session : pyval) : outcome pyval :=
  get_current_user session.

Definition require_admin (session : pyval) : outcome pyval :=
  let* user := get_current_user session in
  let* roles := get_user_roles session in
  let* is_admin := py_in "admin" roles in
  if negb is_admin then Fail (HTTPException 403 "Admin access required")
  else Done user.

Definition inject_user_context (session : pyval) : outcome (pyval * pyval) :=
  let* user := get_current_user session in
  let* roles := get_user_roles session in
  Done (user, roles).

(** *** fastapi-app/app/routes/auth_routes.py *)

(** [s * n] *)
Fixpoint str_repeat (s : string) (n : nat) : string :=
  match n with
  | O => EmptyString
  | S n' => s +:+ str_repeat s n'
  end.

(** [payload += "=" * (4 - len(payload) % 4)] *)
Definition pad_base64 (payload : string) : string :=
  payload +:+ str_repeat "=" (4 - String.length payload `mod` 4)%nat.

Section Routes.
Context {P : Platform}.
(** [base64.urlsafe_b64decode]; [None] when it raises. *)
Variable urlsafe_b64decode : string → option string.

Definition _decode_jwt_payload (token : string) : pyval :=
  let parts := split_on "." token in
  if negb (length parts =? 3)%nat then PDict []
  else
    let payload := pad_base64 (nth 1 parts EmptyString) in
    match urlsafe_b64decode payload with
    | None => PDict []
    | Some decoded =>
        match json_loads decoded with
        | Ok claims => claims
        | Raise _ => PDict []
        end
    end.

(** A handler runs on the session and leaves it changed, also when it
    raises. *)
Definition H (A : Type) : Type := pyval → outcome A * pyval.

Definition h_ret {A} (a : A) : H A := λ s, (Done a, s).

Definition h_bind {A B} (m : H A) (k : A → H B) : H B :=
  λ s, match m s with
       | (Done a, s') => k a s'
       | (Fail e, s') => (Fail e, s')
       end.

Definition h_lift {A} (o : outcome A) : H A := λ s, (o, s).

(** [request.session[key] = value] *)
Definition session_setitem (key : string) (value : pyval) : H unit :=
  λ s, match py_setitem s key value with
       | Done s' => (Done tt, s')
       | Fail e => (Fail e, s)
       end.

(** [request.session.clear()] *)
Definition session_clear : H unit :=
  λ s, match py_clear s with
       | Done s' => (Done tt, s')
       | Fail e => (Fail e, s)
       end.

Notation "'do' x := m 'in' k" := (h_bind m (λ x, k))
  (at level 10, x name, m at level 100, k at level 200) : handler_scope.


(** The configuration values the routes read (config.py). *)
Record Settings : Type := mkSettings {
  keycloak_url : string;
  keycloak_realm : string;
  keycloak_client_id : string;
  app_url : string;
  frontend_url : string;
}.


(** *** backend/app/routes/auth_routes.py

    The API has the same [_decode_jwt_payload]; its [callback] also keeps
    the refresh token and redirects to the frontend, its [logout] tells
    the identity provider first, and [me] reports the user. *)

Definition api_callback (settings : Settings) (token : pyval) : H string :=
  do userinfo := h_lift (py_get token "userinfo" (PDict [])) in
  do access_token := h_lift (py_get token "access_token" (PStr "")) in
  do access_claims :=
    h_lift (match access_token with
            | PStr t => Done (_decode_jwt_payload t)
            | _ => Fail AttributeError
            end) in
  do sub := h_lift (py_get userinfo "sub" PNone) in
  do email := h_lift (py_get userinfo "email" PNone) in
  do fallback := h_lift (py_get userinfo "preferred_username" (PStr "")) in
  do name := h_lift (py_get userinfo "name" fallback) in
  do preferred := h_lift (py_get userinfo "preferred_username" PNone) in
  do _ := session_setitem "user"
            (PDict [("sub", sub); ("email", email); ("name", name);
                    ("preferred_username", preferred)]) in
  do refresh_token := h_lift (py_get token "refresh_token" (PStr "")) in
  do resource_access :=
    h_lift (py_get access_claims "resource_access" (PDict [])) in
  do _ := session_setitem "token"
            (PDict [("access_token", access_token);
                    ("refresh_token", refresh_token);
                    ("resource_access", resource_access)]) in
  h_ret (frontend_url settings).

(** [me]: the status and the JSON body of the answer. *)
Definition me (session : pyval) : outcome (Z * pyval) :=
  let* user := py_get session "user" PNone in
  if negb (truthy user)
  then Done (401, PDict [("detail", PStr "Not authenticated")])
  else
    let* token := py_get session "token" (PDict []) in
    let* resource_access := py_get token "resource_access" (PDict []) in
    let* client_roles := py_get resource_access "student-app" (PDict []) in
    let* roles := py_get client_roles "roles" (PList []) in
    let* sub := py_get user "sub" PNone in
    let* email := py_get user "email" PNone in
    let* name := py_get user "name" PNone in
    let* preferred := py_get user "preferred_username" PNone in
    Done (200, PDict [("sub", sub); ("email", email); ("name", name);
                      ("preferred_username", preferred); ("roles", roles)]).

(** [logout] of the API: the refresh token that is posted to the identity
    provider, if any (the post is best effort, its failure is swallowed),
    and the JSON body of the answer. *)
Definition api_logout : H (option pyval * pyval) :=
  do token_data :=
    (λ s, h_lift (py_get s "token" (PDict [])) s) in
  do refresh_token := h_lift (py_get token_data "refresh_token" (PStr "")) in
  let posted := if truthy refresh_token then Some refresh_token else None in
  do _ := session_clear in
  h_ret (posted, PDict [("redirect", PStr "/")]).

End Routes.

(** The user entry [callback] writes. *)
Definition user_entry (userinfo : list (string * pyval)) : pyval :=
  PDict [("sub", default PNone (assoc "sub" userinfo));
         ("email", default PNone (assoc "email" userinfo));
         ("name", default (default (PStr "")
                             (assoc "preferred_username" userinfo))
                          (assoc "name" userinfo));
         ("preferred_username",
          default PNone (assoc "preferred_username" userinfo))].

(** *** backend/app/routes/student_routes.py *)

(** The rows of the two tables (app/models.py). *)
Record Department : Type := mkDepartment {
  department_pk : Z;
  department_name : string;
  description : option string;
}.

Record Student : Type := mkStudent {
  student_pk : Z;
  name : string;
  email : string;
  keycloak_user_id : option string;
  department_id : option Z;
}.

Record Database : Type := mkDatabase {
  students : list Student;
  departments : list Department;
}.

(** [db.query(Student).filter(Student.id == student_id).first()], on the
    SQLite database of the default [database_url]: an [int] outside the
    signed 64-bit range cannot be bound as a parameter of the query and
    raises [OverflowError]. *)
Definition student_by_id (db : Database) (student_id : Z)
  : outcome (option Student) :=
  if (- 2 ^ 63 <=? student_id) && (student_id <? 2 ^ 63)
  then Done (find (λ s, student_pk s =? student_id) (students db))
  else Fail OverflowError.

(** [s.department]: the row the foreign key points to, if any. *)
Definition department_of (db : Database) (s : Student) : option Department :=
  match department_id s with
  | None => None
  | Some pk => find (λ d, department_pk d =? pk) (departments db)
  end.

Definition opt_str (o : option string) : pyval :=
  match o with Some t => PStr t | None => PNone end.

Definition opt_int (o : option Z) : pyval :=
  match o with Some n => PInt n | None => PNone end.

Definition _student_to_response (db : Database) (s : Student) : pyval :=
  PDict [("id", PInt (student_pk s));
         ("name", PStr (name s));
         ("email", PStr (email s));
         ("keycloak_user_id", opt_str (keycloak_user_id s));
         ("department_id", opt_int (department_id s));
         ("department_name", opt_str (department_name <$> department_of db s))].

(** [a != v] for a column value [a] that is a [str] or [None]. *)
Definition differs (a : option string) (v : pyval) : bool :=
  match a, v with
  | None, PNone => false
  | Some t, PStr u => negb (String.eqb t u)
  | _, _ => true
  end.

(** [student_detail], with its dependency [require_authenticated] run
    first. *)
Definition student_detail (student_id : Z) (session : pyval) (db : Database)
  : outcome pyval :=
  let* _ := require_authenticated session in
  let* user := get_current_user session in
  let* roles := get_user_roles session in
  let* found := student_by_id db student_id in
  match found with
  | None => Fail (HTTPException 404 "Student not found")
  | Some student =>
      let* is_student := py_in "student" roles in
      let* own_only :=
        if is_student then
          let* is_admin := py_in "admin" roles in
          if negb is_admin then
            let* is_staff := py_in "staff" roles in
            Done (negb is_staff)
          else Done false
        else Done false in
      if own_only then
        let* sub := py_get user "sub" PNone in
        if differs (keycloak_user_id student) sub
        then Fail (HTTPException 403 "Access denied")
        else Done (_student_to_response db student)
      else Done (_student_to_response db student)
  end.

End Handlers.

(** The number of occurrences of [c] in [s]. *)
Fixpoint count_char (c : ascii) (s : string) : nat :=
  match s with
  | EmptyString => O
  | String c' s' => (if Ascii.eqb c' c then 1 else 0) + count_char c s'
  end.

(** ** Sessions, tokens and rows used by the examples *)
Module Cases.
Import Handlers.

Definition roles_claim (roles : pyval) : pyval :=
  PDict [("student-app", PDict [("roles", roles)])].

Definition user_bob : pyval :=
  PDict [("sub", PStr "kc-bob"); ("email", PStr "bob@example.org");
         ("name", PStr "Bob"); ("preferred_username", PStr "bob")].

(** The session of a logged-in user with the given roles. *)
Definition session_of (roles : pyval) : pyval :=
  PDict [("user", user_bob);
         ("token", PDict [("access_token", PStr "h.p.s");
                          ("resource_access", roles_claim roles)])].

Definition student_session : pyval := session_of (PList [PStr "student"]).

(** Logged in, but the token carries no role claims. *)
Definition bare_session : pyval :=
  PDict [("user", user_bob);
         ("token", PDict [("access_token", PStr "h.p.s")])].

(** The access token [h.p.s], whose middle part decodes to the claims of
    an admin, and the token response that carries it. *)
Definition toy_b64decode (payload : string) : option string :=
  if String.eqb payload "p===" then Some "claims" else None.

Definition claims : pyval :=
  PDict [("resource_access", roles_claim (PList [PStr "admin"]))].

Definition claims_platform : Platform :=
  {| json_dumps := λ v, if truthy v then Ok "session-json" else Ok "{}";
     json_loads := λ text, if String.eqb text "claims" then Ok claims
                           else Raise JSONDecodeError;
     uuid4_at := Fixture.counter_uuid;
     store_fails := λ _, false |}.

Definition token_response : pyval :=
  PDict [("access_token", PStr "h.p.s");
         ("userinfo", PDict [("sub", PStr "kc-bob");
                             ("preferred_username", PStr "bob")])].


Definition settings : Settings :=
  mkSettings "https://idp.keycloak.com:31111" "student-mgmt" "student-app"
             "http://localhost:8000" "http://localhost:5173".

(** Writes fail, reads and deletes go through. *)
Definition writes_fail : Platform :=
  {| json_dumps := Fixture.table_dumps; json_loads := Fixture.table_loads;
     uuid4_at := Fixture.counter_uuid;
     store_fails := λ op, match op with OpSetex _ _ _ => true | _ => false end |}.

(** A request presenting the cookie for the first identifier. *)
Definition id0_scope : Scope :=
  Fixture.http_scope {[ "session" := Fixture.cookie_id0 ]}.

Definition bob_row : Student :=
  mkStudent 1 "Bob" "bob@example.org" (Some "kc-bob") (Some 10).
Definition eve_row : Student :=
  mkStudent 2 "Eve" "eve@example.org" (Some "kc-eve") None.

Definition school : Database :=
  mkDatabase [bob_row; eve_row] [mkDepartment 10 "Physics" None].

End Cases.

(** * Properties *)

(** ** Strings *)

Lemma append_cons c (a b : string) : String c a +:+ b = String c (a +:+ b).
Proof. reflexivity. Qed.

Lemma rsplit_sound sep s a b :
  rsplit sep s = Some (a, b) → s = a +:+ String sep b.
Proof.
  revert a b. induction s as [|c s IH]; intros a b; simpl; [discriminate|].
  destruct (rsplit sep s) as [[a' b']|] eqn:E.
  - intros [= <- <-]. simpl. by rewrite (IH a' b').
  - destruct (Ascii.eqb c sep) eqn:Ec; [|discriminate].
    intros [= <- <-]. apply Ascii.eqb_eq in Ec. by subst.
Qed.

Lemma rsplit_none sep s : occurs sep s = false → rsplit sep s = None.
Proof.
  induction s as [|c s IH]; simpl; [done|].
  intros [Hc Hs]%orb_false_iff. by rewrite IH, Hc.
Qed.

Lemma rsplit_last sep a b :
  occurs sep b = false → rsplit sep (a +:+ String sep b) = Some (a, b).
Proof.
  intros Hb. induction a as [|c a IH]; simpl.
  - by rewrite rsplit_none, Ascii.eqb_refl.
  - by rewrite IH.
Qed.

Lemma urlsafe_no_dot s : urlsafe s = true → occurs "." s = false.
Proof.
  induction s as [|c s IH]; simpl; [done|].
  intros [Hc Hs]%andb_true_iff. rewrite (IH Hs), orb_false_r.
  destruct (Ascii.eqb c ".") eqn:E; [|done].
  apply Ascii.eqb_eq in E. subst c. discriminate Hc.
Qed.

Lemma verify_sign mac secret_key identifier :
  occurs "." (mac secret_key identifier) = false →
  verify mac secret_key (sign mac secret_key identifier) = Ok identifier.
Proof.
  intros Hdot. unfold verify, sign.
  by rewrite (rsplit_last _ _ _ Hdot), String.eqb_refl.
Qed.

Lemma verify_accepts mac secret_key v identifier :
  verify mac secret_key v = Ok identifier → v = sign mac secret_key identifier.
Proof.
  unfold verify, sign.
  destruct (rsplit "." v) as [[payload tag]|] eqn:E; [|discriminate].
  destruct (String.eqb tag (mac secret_key payload)) eqn:Et; [|discriminate].
  intros [= <-]. apply String.eqb_eq in Et. subst tag.
  by apply rsplit_sound.
Qed.

Lemma verify_outcome mac secret_key v :
  (∃ identifier, verify mac secret_key v = Ok identifier)
  ∨ verify mac secret_key v = Raise BadSignature.
Proof.
  unfold verify. destruct (rsplit "." v) as [[payload tag]|]; [|by right].
  destruct (String.eqb tag (mac secret_key payload)); [left; eauto|by right].
Qed.

Lemma append_assoc (a b c : string) : (a +:+ b) +:+ c = a +:+ (b +:+ c).
Proof.
  induction a as [|x a IH]; [done|]. by rewrite !append_cons, IH.
Qed.

(** ** The read path *)

Section ReadPath.
Context {P : Platform}.
Variables (self : RedisSessionMiddleware) (scope : Scope) (w : World).

Lemma load_session_no_cookie :
  scope_cookies scope !! session_cookie self = None →
  load_session self scope w = (Ok (None, empty_dict), w).
Proof. intros Hc. unfold load_session. by rewrite Hc. Qed.

Lemma load_session_blank_cookie v :
  scope_cookies scope !! session_cookie self = Some v →
  str_truthy v = false →
  load_session self scope w = (Ok (None, empty_dict), w).
Proof. intros Hc Hv. unfold load_session. by rewrite Hc, Hv. Qed.

Lemma load_session_rejected v e :
  scope_cookies scope !! session_cookie self = Some v →
  str_truthy v = true →
  loads (signer self) v = Raise e →
  load_session self scope w = (Ok (None, empty_dict), w).
Proof.
  intros Hc Hv Hl. unfold load_session, try_except, bind, lift.
  by rewrite Hc, Hv, Hl.
Qed.

Section Verified.
Variables (v sid : string).
Hypothesis Hcookie : scope_cookies scope !! session_cookie self = Some v.
Hypothesis Hvalue : str_truthy v = true.
Hypothesis Hloads : loads (signer self) v = Ok sid.

Lemma load_session_read_fault :
  store_fails (OpGet (session_key sid)) = true →
  load_session self scope w
  = (Ok (None, empty_dict), after_call (OpGet (session_key sid)) w).
Proof.
  intros Hf. unfold load_session, try_except, bind, lift, redis_get.
  rewrite Hcookie, Hvalue, Hloads. simpl. by rewrite Hf.
Qed.

Lemma load_session_missing :
  store_fails (OpGet (session_key sid)) = false →
  redis_db w !! session_key sid = None →
  load_session self scope w
  = (Ok (Some sid, empty_dict), after_call (OpGet (session_key sid)) w).
Proof.
  intros Hf Hdb. unfold load_session, try_except, bind, lift, redis_get.
  rewrite Hcookie, Hvalue, Hloads. simpl. by rewrite Hf, Hdb.
Qed.


Lemma load_session_decoded raw ttl data :
  store_fails (OpGet (session_key sid)) = false →
  redis_db w !! session_key sid = Some (raw, ttl) →
  str_truthy raw = true →
  json_loads raw = Ok data →
  load_session self scope w
  = (Ok (Some sid, data), after_call (OpGet (session_key sid)) w).
Proof.
  intros Hf Hdb Hraw Hj. unfold load_session, try_except, bind, lift, redis_get.
  rewrite Hcookie, Hvalue, Hloads. simpl. rewrite Hf, Hdb. simpl.
  by rewrite Hraw, Hj.
Qed.

Lemma load_session_malformed raw ttl e :
  store_fails (OpGet (session_key sid)) = false →
  redis_db w !! session_key sid = Some (raw, ttl) →
  str_truthy raw = true →
  json_loads raw = Raise e →
  load_session self scope w
  = (Ok (None, empty_dict), after_call (OpGet (session_key sid)) w).
Proof.
  intros Hf Hdb Hraw Hj. unfold load_session, try_except, bind, lift, redis_get.
  rewrite Hcookie, Hvalue, Hloads. simpl. rewrite Hf, Hdb. simpl.
  by rewrite Hraw, Hj.
Qed.
End Verified.

(** The read path always returns; it makes at most one call on the
    store, a read, and leaves the database as it was. *)
Lemma load_session_returns :
  ∃ sid data w', load_session self scope w = (Ok (sid, data), w')
                 ∧ redis_db w' = redis_db w
                 ∧ uuid_calls w' = uuid_calls w
                 ∧ (redis_log w' = redis_log w
                    ∨ ∃ key, redis_log w' = redis_log w ++ [OpGet key]).
Proof.
  unfold load_session, try_except, bind, lift, redis_get, ret.
  destruct (scope_cookies scope !! session_cookie self) as [v|];
    [|by eexists _, _, _; eauto].
  destruct (str_truthy v); [|by eexists _, _, _; eauto].
  destruct (loads (signer self) v) as [sid|e]; simpl;
    [|by eexists _, _, _; eauto].
  destruct (store_fails (OpGet (session_key sid)));
    [by eexists _, _, _; simpl; eauto 7|].
  destruct (redis_db w !! session_key sid) as [[raw ttl]|]; simpl;
    [|by eexists _, _, _; simpl; eauto 7].
  destruct (str_truthy raw); [|by eexists _, _, _; simpl; eauto 7].
  destruct (json_loads raw); by eexists _, _, _; simpl; eauto 7.
Qed.
End ReadPath.

(** ** The write path *)

Lemma forwarded_refl m : forwarded m m.
Proof. by repeat split. Qed.

Lemma forwarded_append k v m : forwarded m (headers_append k v m).
Proof. repeat split; simpl; by apply prefix_app_r. Qed.

Section WritePath.
Context {P : Platform}.
Variable self : RedisSessionMiddleware.

Lemma send_wrapper_other session_id cur message w :
  msg_type message ≠ "http.response.start" →
  send_wrapper self session_id cur message w = (Ok message, w).
Proof.
  intros Hty%String.eqb_neq. unfold send_wrapper. by rewrite Hty.
Qed.

Lemma send_wrapper_quiet cur message w :
  truthy (default empty_dict cur) = false →
  send_wrapper self None cur message w = (Ok message, w).
Proof.
  intros He. unfold send_wrapper. rewrite He.
  by destruct (String.eqb _ _).
Qed.

Lemma send_wrapper_clear sid cur message w :
  msg_type message = "http.response.start" →
  truthy (default empty_dict cur) = false →
  send_wrapper self (Some sid) cur message w
  = (Ok (headers_append "set-cookie" (clear_cookie self) message),
     after_write (OpDelete (session_key sid))
                 (delete (session_key sid) (redis_db w)) w).
Proof.
  intros Hty%String.eqb_eq He.
  unfold send_wrapper, after_write, bind, try_except, redis_delete, ret.
  rewrite Hty, He. simpl.
  by destruct (store_fails (OpDelete (session_key sid))).
Qed.

Lemma send_wrapper_store session_id cur message w payload :
  msg_type message = "http.response.start" →
  truthy (default empty_dict cur) = true →
  json_dumps (default empty_dict cur) = Ok payload →
  let new_id := target_id session_id w in
  let w0 := after_choice session_id w in
  send_wrapper self session_id cur message w
  = (Ok (headers_append "set-cookie" (issue_cookie self new_id) message),
     after_write (OpSetex (session_key new_id) (max_age self) payload)
                 (<[session_key new_id := (payload, max_age self)]>
                    (redis_db w0)) w0).
Proof.
  intros Hty%String.eqb_eq Ht Hj.
  unfold send_wrapper, after_write, bind, try_except, redis_setex, lift, ret.
  rewrite Hty, Ht. destruct session_id as [sid|]; simpl; rewrite Hj; simpl.
  - by destruct (store_fails (OpSetex (session_key sid) (max_age self) payload)).
  - by destruct (store_fails _).
Qed.

Lemma send_wrapper_unserialisable session_id cur message w e :
  msg_type message = "http.response.start" →
  truthy (default empty_dict cur) = true →
  json_dumps (default empty_dict cur) = Raise e →
  send_wrapper self session_id cur message w
  = (Ok (headers_append "set-cookie"
           (issue_cookie self (target_id session_id w)) message),
     set_client true (after_choice session_id w)).
Proof.
  intros Hty%String.eqb_eq Ht Hj.
  unfold send_wrapper, bind, try_except, lift, ret.
  rewrite Hty, Ht. destruct session_id as [sid|]; simpl; by rewrite Hj.
Qed.

(** The wrapper always returns, whatever the store does, and hands on
    the message it was given with at most one header added. *)
Lemma send_wrapper_returns session_id cur message w :
  ∃ m' w', send_wrapper self session_id cur message w = (Ok m', w')
           ∧ forwarded message m'.
Proof.
  destruct (decide (msg_type message = "http.response.start")) as [Hty|Hty];
    [|rewrite send_wrapper_other by done; eauto using forwarded_refl].
  destruct (truthy (default empty_dict cur)) eqn:Ht.
  - destruct (json_dumps (default empty_dict cur)) as [payload|e] eqn:Hj.
    + rewrite (send_wrapper_store _ _ _ _ payload) by done.
      eauto using forwarded_append.
    + rewrite (send_wrapper_unserialisable _ _ _ _ e) by done.
      eauto using forwarded_append.
  - destruct session_id as [sid|].
    + rewrite send_wrapper_clear by done. eauto using forwarded_append.
    + rewrite send_wrapper_quiet by done. eauto using forwarded_refl.
Qed.

(** The wrapper's result does not depend on the call log nor on whether
    the client existed: from worlds with the same database and the same
    entropy it sends the same message, makes the same calls and leaves
    the same database. *)
Lemma send_wrapper_same_store session_id cur message w1 w2 :
  same_store w1 w2 →
  ∃ m' w1' w2' ops,
    send_wrapper self session_id cur message w1 = (Ok m', w1')
    ∧ send_wrapper self session_id cur message w2 = (Ok m', w2')
    ∧ redis_log w1' = redis_log w1 ++ ops
    ∧ redis_log w2' = redis_log w2 ++ ops
    ∧ same_store w1' w2'.
Proof.
  intros [Hdb Hu].
  destruct (decide (msg_type message = "http.response.start")) as [Hty|Hty].
  2:{ rewrite !send_wrapper_other by done.
      exists message, w1, w2, []. by rewrite !app_nil_r. }
  destruct (truthy (default empty_dict cur)) eqn:Ht.
  - assert (target_id session_id w1 = target_id session_id w2) as Hid
      by (destruct session_id; simpl; congruence).
    destruct (json_dumps (default empty_dict cur)) as [payload|e] eqn:Hj.
    + rewrite !(send_wrapper_store _ _ _ _ payload) by done.
      rewrite Hid.
      eexists _, _, _,
        [OpSetex (session_key (target_id session_id w2)) (max_age self) payload].
      split; [done|]. split; [done|]. unfold after_write, same_store.
      destruct (store_fails _); destruct session_id; simpl;
        rewrite ?Hdb, ?Hu; by repeat split.
    + rewrite !(send_wrapper_unserialisable _ _ _ _ e) by done.
      rewrite Hid. eexists _, _, _, [].
      split; [done|]. split; [done|]. unfold same_store.
      destruct session_id; simpl; rewrite ?app_nil_r, ?Hdb, ?Hu;
        by repeat split.
  - destruct session_id as [sid|].
    + rewrite !send_wrapper_clear by done.
      eexists _, _, _, [OpDelete (session_key sid)].
      split; [done|]. split; [done|]. unfold after_write, same_store.
      destruct (store_fails _); simpl; rewrite ?Hdb, ?Hu; by repeat split.
    + rewrite !send_wrapper_quiet by done.
      exists message, w1, w2, []. by rewrite !app_nil_r.
Qed.

(** *** The application against the wrapper *)

Lemma drive_returns session_id cur evs w :
  ∃ ms w', drive self session_id cur evs w = (Ok ms, w')
           ∧ Forall2 forwarded (sent evs) ms.
Proof.
  revert cur w. induction evs as [|[s|m] evs IH]; intros cur w; simpl.
  - by eexists _, _.
  - apply IH.
  - destruct (send_wrapper_returns session_id cur m w) as (m' & w1 & Hs & Hf).
    destruct (IH cur w1) as (ms & w2 & Hd & Hfs).
    exists (m' :: ms), w2. unfold bind, ret. rewrite Hs, Hd.
    split; [done|]. by constructor.
Qed.

Lemma drive_no_start session_id cur evs w :
  Forall (λ m, msg_type m ≠ "http.response.start") (sent evs) →
  drive self session_id cur evs w = (Ok (sent evs), w).
Proof.
  revert cur. induction evs as [|[s|m] evs IH]; intros cur; simpl.
  - done.
  - apply IH.
  - intros [Hm Hrest]%Forall_cons. unfold bind, ret.
    by rewrite send_wrapper_other, IH.
Qed.

Lemma drive_quiet cur evs w :
  empty_at_starts cur evs = true →
  drive self None cur evs w = (Ok (sent evs), w).
Proof.
  revert cur. induction evs as [|[s|m] evs IH]; intros cur; simpl.
  - done.
  - apply IH.
  - intros [Hm Hrest]%andb_true_iff. unfold bind, ret.
    apply orb_true_iff in Hm as [Hm|Hm]; apply negb_true_iff in Hm.
    + apply String.eqb_neq in Hm. by rewrite send_wrapper_other, IH.
    + by rewrite send_wrapper_quiet, IH.
Qed.

Lemma drive_same_store session_id cur evs w1 w2 :
  same_store w1 w2 →
  ∃ ms w1' w2' ops,
    drive self session_id cur evs w1 = (Ok ms, w1')
    ∧ drive self session_id cur evs w2 = (Ok ms, w2')
    ∧ redis_log w1' = redis_log w1 ++ ops
    ∧ redis_log w2' = redis_log w2 ++ ops
    ∧ same_store w1' w2'.
Proof.
  revert cur w1 w2. induction evs as [|[s|m] evs IH]; intros cur w1 w2 Hw; simpl.
  - exists [], w1, w2, []. by rewrite !app_nil_r.
  - by apply IH.
  - destruct (send_wrapper_same_store session_id cur m w1 w2 Hw)
      as (m' & u1 & u2 & ops & Hs1 & Hs2 & Hl1 & Hl2 & Hu).
    destruct (IH cur u1 u2 Hu)
      as (ms & v1 & v2 & ops' & Hd1 & Hd2 & Hm1 & Hm2 & Hv).
    exists (m' :: ms), v1, v2, (ops ++ ops'). unfold bind, ret.
    rewrite Hs1, Hs2, Hd1, Hd2, Hm1, Hm2, Hl1, Hl2.
    by rewrite !(assoc_L (++)).
Qed.
End WritePath.

(** ** The cookies *)

Lemma append_nil_r (a : string) : a +:+ "" = a.
Proof. induction a as [|x a IH]; [done|]. by rewrite append_cons, IH. Qed.

Lemma issue_cookie_form self new_id :
  issue_cookie self new_id
  = session_cookie self +:+ "=" +:+ dumps (signer self) new_id
    +:+ "; Path=/; HttpOnly; Max-Age=" +:+ pretty (max_age self)
    +:+ "; SameSite=lax" +:+ (if https_only self then "; Secure" else "").
Proof.
  unfold issue_cookie. destruct (https_only self).
  - by rewrite !append_assoc.
  - reflexivity.
Qed.

Lemma clear_cookie_form self :
  clear_cookie self
  = session_cookie self +:+ "=; Path=/; HttpOnly; Max-Age=0; SameSite=lax".
Proof. reflexivity. Qed.

Lemma split_on_app sep a b :
  occurs sep a = false →
  split_on sep (a +:+ String sep b) = a :: split_on sep b.
Proof.
  induction a as [|c a IH]; intros Ha.
  - change (EmptyString +:+ String sep b) with (String sep b).
    simpl. by rewrite Ascii.eqb_refl.
  - simpl in Ha. apply orb_false_iff in Ha as [Hc Ha].
    rewrite append_cons. simpl. by rewrite Hc, (IH Ha).
Qed.

Lemma occurs_app c a b : occurs c (a +:+ b) = occurs c a || occurs c b.
Proof.
  induction a as [|x a IH]; [done|].
  rewrite append_cons. simpl. by rewrite IH, orb_assoc.
Qed.


Lemma pretty_N_char_semicolon n : Ascii.eqb (pretty_N_char n) ";" = false.
Proof.
  unfold pretty_N_char.
  destruct n as [|p]; [done|].
  repeat (destruct p as [p|p|]; try done).
Qed.

Lemma occurs_pretty_N_go x s :
  occurs ";" (pretty_N_go x s) = occurs ";" s.
Proof.
  revert s. induction (N.lt_wf_0 x) as [x _ IH]; intros s.
  destruct (decide (x = 0)%N) as [->|Hx]; [by rewrite pretty_N_go_0|].
  rewrite pretty_N_go_step by lia.
  rewrite IH by (apply N.div_lt; lia). simpl.
  by rewrite pretty_N_char_semicolon.
Qed.

(** [str(n)] of an [int] has no semicolon in it. *)
Lemma occurs_pretty_Z (z : Z) : occurs ";" (pretty z) = false.
Proof.
  assert (∀ n : N, occurs ";" (pretty n) = false) as HN.
  { intros n. unfold pretty, pretty_N. case_decide; [done|].
    by rewrite occurs_pretty_N_go. }
  destruct z as [|p|p]; unfold pretty, pretty_Z; [done|apply HN|].
  change ("-" +:+ pretty (N.pos p)) with (String "-" (pretty (N.pos p))).
  simpl. apply HN.
Qed.

(** The attributes of the cookie that is issued: Path, HttpOnly, Max-Age
    with the configured value, SameSite, and Secure exactly under
    [https_only]. *)
Lemma issue_cookie_attrs self new_id :
  occurs ";" (session_cookie self) = false →
  occurs ";" (dumps (signer self) new_id) = false →
  cookie_pair (issue_cookie self new_id)
  = session_cookie self +:+ "=" +:+ dumps (signer self) new_id
  ∧ cookie_attrs (issue_cookie self new_id)
    = ["Path=/"; "HttpOnly"; "Max-Age=" +:+ pretty (max_age self);
       "SameSite=lax"] ++ (if https_only self then ["Secure"] else []).
Proof.
  intros Hname Hsigned. unfold cookie_pair, cookie_attrs.
  assert (issue_cookie self new_id
          = (session_cookie self +:+ "=" +:+ dumps (signer self) new_id)
            +:+ String ";" (" Path=/"
            +:+ String ";" (" HttpOnly"
            +:+ String ";" ((" Max-Age=" +:+ pretty (max_age self))
            +:+ String ";" (" SameSite=lax"
            +:+ (if https_only self then "; Secure" else "")))))) as ->.
  { rewrite issue_cookie_form. by rewrite !append_assoc. }
  rewrite split_on_app by (by rewrite !occurs_app, Hname, Hsigned).
  rewrite split_on_app by done.
  rewrite split_on_app by done.
  rewrite split_on_app by (by rewrite occurs_app, occurs_pretty_Z).
  by destruct (https_only self).
Qed.

(** The Set-Cookie values of a message to which one was appended. *)
Lemma set_cookies_append value m :
  set_cookies (headers_append "set-cookie" value m) = set_cookies m ++ [value].
Proof.
  unfold set_cookies, headers_append. simpl.
  rewrite filter_app, fmap_app. f_equal.
Qed.

(** * The claims *)

Section Claims.
Context {P : Platform}.
Variable self : RedisSessionMiddleware.



End Claims.

Section RequestClaims.
Context {P : Platform}.
Variable self : RedisSessionMiddleware.

Lemma call_handled scope app w :
  handled scope = true →
  call self scope app w
  = match load_session self scope w with
    | (Ok (session_id, initial_data), w1) =>
        drive self session_id (Some initial_data)
              (app (attach_session initial_data scope)) w1
    | (Raise e, w1) => (Raise e, w1)
    end.
Proof.
  intros Hh. unfold call, bind. rewrite Hh. simpl.
  by destruct (load_session self scope w) as [[[sid data]|e] w1].
Qed.

(** C4, with the identifier dropped.  When the cookie verifies to [id] but the read of
    the record fails, or the stored text does not decode, the request
    proceeds with the empty context, as it would for an absent record,
    and nothing is raised; but the identifier is dropped, where an
    absent record keeps it.  From there on the request is the request
    without the cookie: the same messages and headers reach the client,
    the same calls are made on the store at response time, and the
    database and the entropy end up the same (the only trace is the read
    attempt in the call log). *)
Theorem C4_read_failure_discards_identifier
    (scope : Scope) (app : ASGIApp) (w : World) (v id : string) :
  scope_cookies scope !! session_cookie self = Some v →
  str_truthy v = true →
  loads (signer self) v = Ok id →
  (store_fails (OpGet (session_key id)) = true
   ∨ store_fails (OpGet (session_key id)) = false
     ∧ ∃ raw ttl e, redis_db w !! session_key id = Some (raw, ttl)
                    ∧ str_truthy raw = true
                    ∧ json_loads raw = Raise e) →
  handled scope = true →
  (let scope0 := without_cookie (session_cookie self) scope in
   app (attach_session empty_dict scope0)
   = app (attach_session empty_dict scope)) →
  load_session self scope w
  = (Ok (None, empty_dict), after_call (OpGet (session_key id)) w)
  ∧ (∀ (P' : Platform) (w' : World),
       @store_fails P' (OpGet (session_key id)) = false →
       redis_db w' !! session_key id = None →
       @load_session P' self scope w'
       = (Ok (Some id, empty_dict), after_call (OpGet (session_key id)) w'))
  ∧ ∃ msgs wa wb ops,
      call self scope app w = (Ok msgs, wa)
      ∧ call self (without_cookie (session_cookie self) scope) app w
        = (Ok msgs, wb)
      ∧ redis_log wa = redis_log w ++ OpGet (session_key id) :: ops
      ∧ redis_log wb = redis_log w ++ ops
      ∧ redis_db wa = redis_db wb
      ∧ uuid_calls wa = uuid_calls wb.
Proof.
  intros Hc Hv Hl Hfail Hh Happ.
  assert (load_session self scope w
          = (Ok (None, empty_dict), after_call (OpGet (session_key id)) w))
    as Hload.
  { destruct Hfail as [Hf|(Hf & raw & ttl & e & Hdb & Hraw & Hj)].
    - by apply (load_session_read_fault _ _ _ v).
    - by apply (load_session_malformed _ _ _ v id Hc Hv Hl raw ttl e). }
  split; [done|]. split.
  { intros P' w' Hf Hdb. by apply (@load_session_missing P' _ _ _ v). }
  set (scope0 := without_cookie (session_cookie self) scope) in *.
  assert (load_session self scope0 w = (Ok (None, empty_dict), w)) as Hload0.
  { apply load_session_no_cookie. simpl. apply lookup_delete_eq. }
  rewrite !call_handled by done. rewrite Hload, Hload0, Happ.
  destruct (drive_same_store self None (Some empty_dict)
              (app (attach_session empty_dict scope))
              (after_call (OpGet (session_key id)) w) w)
    as (ms & wa & wb & ops & Ha & Hb & Hla & Hlb & Hdb & Hu); [done|].
  exists ms, wa, wb, ops. rewrite Ha, Hb, Hla, Hlb. simpl.
  by rewrite <- (assoc_L (++)).
Qed.

(** On messages that carry their header list, [__call__] returns
    whatever the store does. *)
Lemma call_returns (scope : Scope) (app : ASGIApp) (w : World) :
  ∃ msgs w' scope',
    call self scope app w = (Ok msgs, w')
    ∧ Forall2 forwarded (sent (app scope')) msgs.
Proof.
  destruct (handled scope) eqn:Hh.
  - rewrite call_handled by done.
    destruct (load_session_returns self scope w)
      as (sid & data & w1 & -> & _).
    destruct (drive_returns self sid (Some data)
                (app (attach_session data scope)) w1) as (ms & w2 & Hd & Hf).
    by exists ms, w2, (attach_session data scope).
  - unfold call. rewrite Hh. simpl. exists (sent (app scope)), w, scope.
    split; [done|]. apply Forall2_same_length_lookup_2; [done|].
    intros i m m' Hm Hm'. rewrite Hm in Hm'. injection Hm' as <-.
    apply forwarded_refl.
Qed.

Lemma asgi_forwarded_refl m : asgi_forwarded m m.
Proof. repeat split. by destruct (asgi_headers m). Qed.

Lemma send_wrapper_asgi_returns session_id cur message w :
  start_has_headers message = true →
  ∃ m' w', send_wrapper_asgi self session_id cur message w = (Ok m', w')
           ∧ asgi_forwarded message m'.
Proof.
  unfold start_has_headers, send_wrapper_asgi.
  destruct (String.eqb (asgi_type message) "http.response.start") eqn:Hty;
    simpl; [|eauto using asgi_forwarded_refl].
  destruct (asgi_headers message) as [headers|] eqn:Hh; [intros _|done].
  destruct (send_wrapper_returns self session_id cur
              (mkMessage (asgi_type message) headers (asgi_rest message)) w)
    as (m' & w' & Hs & Ht & Hr & Hp).
  exists (to_asgi m'), w'. unfold bind, ret. rewrite Hs.
  split; [done|]. repeat split; simpl; try done. by rewrite Hh.
Qed.

Lemma send_wrapper_asgi_bare session_id cur message w :
  asgi_type message = "http.response.start" →
  asgi_headers message = None →
  send_wrapper_asgi self session_id cur message w = (Raise KeyError, w).
Proof.
  intros Hty%String.eqb_eq Hh. unfold send_wrapper_asgi. by rewrite Hty, Hh.
Qed.

Lemma drive_asgi_returns session_id cur evs w :
  Forall (λ m, start_has_headers m = true) (asgi_sent evs) →
  ∃ ms w', drive_asgi self session_id cur evs w = (Ok ms, w')
           ∧ Forall2 asgi_forwarded (asgi_sent evs) ms.
Proof.
  revert cur w. induction evs as [|[s|m] evs IH]; intros cur w; simpl.
  - by eexists _, _.
  - apply IH.
  - intros [Hm Hrest]%Forall_cons.
    destruct (send_wrapper_asgi_returns session_id cur m w Hm)
      as (m' & w1 & Hs & Hf).
    destruct (IH cur w1 Hrest) as (ms & w2 & Hd & Hfs).
    exists (m' :: ms), w2. unfold bind, ret. rewrite Hs, Hd.
    split; [done|]. by constructor.
Qed.

Lemma call_asgi_handled scope (app : Scope → list AsgiEvent) w :
  handled scope = true →
  call_asgi self scope app w
  = match load_session self scope w with
    | (Ok (session_id, initial_data), w1) =>
        drive_asgi self session_id (Some initial_data)
                   (app (attach_session initial_data scope)) w1
    | (Raise e, w1) => (Raise e, w1)
    end.
Proof.
  intros Hh. unfold call_asgi, bind. rewrite Hh. simpl.
  by destruct (load_session self scope w) as [[[sid data]|e] w1].
Qed.

(** The two readings of the wrapper agree on applications whose messages
    all carry their header list. *)
Lemma drive_asgi_of_messages session_id cur evs w :
  drive_asgi self session_id cur (to_asgi_event <$> evs) w
  = match drive self session_id cur evs w with
    | (Ok ms, w') => (Ok (to_asgi <$> ms), w')
    | (Raise e, w') => (Raise e, w')
    end.
Proof.
  revert cur w. induction evs as [|[s|m] evs IH]; intros cur w; simpl.
  - done.
  - apply IH.
  - unfold bind, ret.
    assert (send_wrapper_asgi self session_id cur (to_asgi m) w
            = match send_wrapper self session_id cur m w with
              | (Ok m', w') => (Ok (to_asgi m'), w')
              | (Raise e, w') => (Raise e, w')
              end) as ->.
    { unfold send_wrapper_asgi. simpl.
      destruct (String.eqb (msg_type m) "http.response.start") eqn:Hty.
      - unfold bind, ret. by destruct m.
      - apply String.eqb_neq in Hty. by rewrite send_wrapper_other. }
    destruct (send_wrapper self session_id cur m w) as [[m'|e] w1]; [|done].
    rewrite IH.
    by destruct (drive self session_id cur evs w1) as [[ms|e] w2].
Qed.

Lemma asgi_sent_of_messages evs :
  asgi_sent (to_asgi_event <$> evs) = to_asgi <$> sent evs.
Proof.
  induction evs as [|[s|m] evs IH]; [done|apply IH|].
  change (to_asgi m :: asgi_sent (to_asgi_event <$> evs)
          = to_asgi m :: (to_asgi <$> sent evs)).
  by rewrite IH.
Qed.

Lemma call_asgi_of_messages scope (app : ASGIApp) w :
  call_asgi self scope (λ s, to_asgi_event <$> app s) w
  = match call self scope app w with
    | (Ok ms, w') => (Ok (to_asgi <$> ms), w')
    | (Raise e, w') => (Raise e, w')
    end.
Proof.
  destruct (handled scope) eqn:Hh.
  - rewrite call_asgi_handled, call_handled by done.
    destruct (load_session self scope w) as [[[sid data]|e] w1]; [|done].
    apply drive_asgi_of_messages.
  - unfold call_asgi, call. rewrite Hh. simpl. unfold ret.
    by rewrite asgi_sent_of_messages.
Qed.

(** C5, for applications whose [http.response.start] messages carry
    their header list.  Whatever the store does on reads, writes and
    deletes, [__call__] returns normally and every message of the
    application reaches the client (with at most a Set-Cookie header
    added).  In particular, when every call on the store fails, a request
    whose cookie verifies proceeds with the empty context and
    completes. *)
Theorem C5_no_exception_reaches_the_caller
    (scope : Scope) (app : Scope → list AsgiEvent) (w : World) :
  (∀ data, Forall (λ m, start_has_headers m = true)
                  (asgi_sent (app (attach_session data scope)))) →
  (∃ msgs w' scope',
      call_asgi self scope app w = (Ok msgs, w')
      ∧ Forall2 asgi_forwarded (asgi_sent (app scope')) msgs)
  ∧ (∀ v id,
       scope_cookies scope !! session_cookie self = Some v →
       str_truthy v = true →
       loads (signer self) v = Ok id →
       handled scope = true →
       (∀ op, store_fails op = true) →
       ∃ w1 msgs w',
         load_session self scope w = (Ok (None, empty_dict), w1)
         ∧ call_asgi self scope app w = (Ok msgs, w')
         ∧ Forall2 asgi_forwarded
             (asgi_sent (app (attach_session empty_dict scope))) msgs).
Proof.
  intros Hheaders. split.
  - destruct (handled scope) eqn:Hh.
    + rewrite call_asgi_handled by done.
      destruct (load_session_returns self scope w)
        as (sid & data & w1 & -> & _).
      destruct (drive_asgi_returns sid (Some data)
                  (app (attach_session data scope)) w1 (Hheaders data))
        as (ms & w2 & Hd & Hf).
      by exists ms, w2, (attach_session data scope).
    + unfold call_asgi. rewrite Hh. simpl.
      exists (asgi_sent (app scope)), w, scope.
      split; [done|]. apply Forall2_same_length_lookup_2; [done|].
      intros i m m' Hm Hm'. rewrite Hm in Hm'. injection Hm' as <-.
      apply asgi_forwarded_refl.
  - intros v id Hc Hv Hl Hh Hdown.
    pose proof (load_session_read_fault self scope w v id Hc Hv Hl
                  (Hdown _)) as Hload.
    destruct (drive_asgi_returns None (Some empty_dict)
                (app (attach_session empty_dict scope))
                (after_call (OpGet (session_key id)) w)
                (Hheaders empty_dict))
      as (ms & w2 & Hd & Hf).
    exists (after_call (OpGet (session_key id)) w), ms, w2.
    rewrite call_asgi_handled by done. by rewrite Hload.
Qed.

(** C9.  A request without a session cookie whose context is empty at
    every [http.response.start] it sends leaves the world exactly as it
    was (no call on the store, no identifier drawn) and its messages
    reach the client unchanged, so without any Set-Cookie header
    added. *)
Theorem C9_anonymous_empty_request_is_untouched
    (scope : Scope) (app : ASGIApp) (w : World) :
  handled scope = true →
  scope_cookies scope !! session_cookie self = None →
  empty_at_starts (Some empty_dict) (app (attach_session empty_dict scope))
  = true →
  call self scope app w
  = (Ok (sent (app (attach_session empty_dict scope))), w).
Proof.
  intros Hh Hc He. rewrite call_handled by done.
  rewrite load_session_no_cookie by done. by apply drive_quiet.
Qed.

(** C10.  The wrapper hands on every message whose type is not
    [http.response.start] as it is and leaves the world as it is.  So a
    connection on which no such message is sent (a websocket) gets all
    its messages through unchanged, whatever the application did to the
    session: the database is the one the connection started with, no
    identifier is drawn, and the only call the store may have seen is
    the read at the start. *)
Theorem C10_other_messages_pass_through :
  (∀ session_id cur message w,
      msg_type message ≠ "http.response.start" →
      send_wrapper self session_id cur message w = (Ok message, w))
  ∧ (∀ scope app w,
       scope_type scope = "websocket" →
       (∀ data, Forall (λ m, msg_type m ≠ "http.response.start")
                       (sent (app (attach_session data scope)))) →
       ∃ session_id data w',
         load_session self scope w = (Ok (session_id, data), w')
         ∧ call self scope app w
           = (Ok (sent (app (attach_session data scope))), w')
         ∧ redis_db w' = redis_db w
         ∧ uuid_calls w' = uuid_calls w
         ∧ (redis_log w' = redis_log w
            ∨ ∃ key, redis_log w' = redis_log w ++ [OpGet key])).
Proof.
  split.
  - intros session_id cur message w Hty. by apply send_wrapper_other.
  - intros scope app w Hws Hmsgs.
    assert (handled scope = true) as Hh.
    { unfold handled. rewrite Hws. by vm_compute. }
    destruct (load_session_returns self scope w)
      as (sid & data & w1 & Hload & Hdb & Hu & Hlog).
    exists sid, data, w1. rewrite call_handled by done. rewrite Hload.
    by rewrite drive_no_start.
Qed.
End RequestClaims.

(** C6.  With a tag function whose tags stay in the URL-safe alphabet,
    loading what the serializer dumped gives back the identifier:
    [verify(sign(id)) == id], for every identifier and every secret. *)
Theorem C6_verify_inverts_sign
    (mac : string → string → string) (secret_key identifier : string) :
  (∀ k m, urlsafe (mac k m) = true) →
  loads (URLSafeSerializer mac secret_key)
        (dumps (URLSafeSerializer mac secret_key) identifier)
  = Ok identifier.
Proof.
  intros Hsafe. simpl. apply verify_sign. apply urlsafe_no_dot, Hsafe.
Qed.

(** C7.  A cookie value that is not the signed encoding of any identifier
    under the secret is reported as [BadSignature]; verification has only
    two outcomes, that report or the identifier of which the value is
    exactly the signed encoding.  The middleware catches the report: the
    request proceeds without identifier and with the empty context, the
    world untouched, exactly as [__call__] does for an anonymous request,
    and [__call__] returns normally. *)
Theorem C7_invalid_cookie_fails_closed
    (mac : string → string → string) (secret_key v : string) :
  (∀ identifier, v ≠ sign mac secret_key identifier) →
  loads (URLSafeSerializer mac secret_key) v = Raise BadSignature
  ∧ (∀ v', loads (URLSafeSerializer mac secret_key) v' = Raise BadSignature
           ∨ ∃ identifier,
               loads (URLSafeSerializer mac secret_key) v' = Ok identifier
               ∧ v' = sign mac secret_key identifier)
  ∧ ∀ (P : Platform) (self : RedisSessionMiddleware) (scope : Scope)
      (app : ASGIApp) (w : World),
      signer self = URLSafeSerializer mac secret_key →
      scope_cookies scope !! session_cookie self = Some v →
      handled scope = true →
      load_session self scope w = (Ok (None, empty_dict), w)
      ∧ call self scope app w
        = drive self None (Some empty_dict)
                (app (attach_session empty_dict scope)) w
      ∧ ∃ msgs w', call self scope app w = (Ok msgs, w').
Proof.
  intros Hv.
  assert (verify mac secret_key v = Raise BadSignature) as Hbad.
  { destruct (verify_outcome mac secret_key v) as [[identifier Hok]|Hr]; [|done].
    by apply verify_accepts, Hv in Hok. }
  split; [done|]. split.
  { intros v'. simpl.
    destruct (verify_outcome mac secret_key v') as [[identifier Hok]|Hr];
      [right|by left].
    exists identifier. eauto using verify_accepts. }
  intros P self scope app w Hsigner Hc Hh.
  assert (load_session self scope w = (Ok (None, empty_dict), w)) as Hload.
  { destruct (str_truthy v) eqn:Htr.
    - apply (load_session_rejected _ _ _ v BadSignature); [done..|].
      by rewrite Hsigner.
    - by apply (load_session_blank_cookie _ _ _ v). }
  split; [done|]. rewrite call_handled by done. rewrite Hload.
  split; [done|].
  destruct (drive_returns self None (Some empty_dict)
              (app (attach_session empty_dict scope)) w) as (ms & w' & Hd & _).
  eauto.
Qed.

(** ** The claims on concrete requests *)

Import Fixture.

Lemma digit64_urlsafe n : urlsafe_char (digit64 n) = true.
Proof.
  unfold digit64.
  assert (forallb urlsafe_char alphabet = true) as Hall by reflexivity.
  rewrite forallb_forall in Hall. apply Hall, nth_In.
  change (length alphabet) with 64%nat. apply Nat.mod_upper_bound. lia.
Qed.

Lemma toy_mac_urlsafe k m : urlsafe (toy_mac k m) = true.
Proof. unfold toy_mac. simpl. by rewrite !digit64_urlsafe. Qed.




Lemma C4_witness :
  load_session (P:=reads_fail) default_mw abc_scope alice_world
  = (Ok (None, empty_dict), after_call (OpGet "session:abc") alice_world).
Proof.
  refine (proj1 (C4_read_failure_discards_identifier (P:=reads_fail)
                   default_mw abc_scope (responds_with alice) alice_world
                   cookie_abc "abc" _ _ _ _ _ _)).
  - reflexivity.
  - reflexivity.
  - reflexivity.
  - left. reflexivity.
  - reflexivity.
  - reflexivity.
Defined.

(** The store is down, the cookie verifies: the request is served with
    the empty context. *)
Lemma C5_witness :
  ∃ w1 msgs w',
    load_session (P:=store_down) default_mw abc_scope alice_world
    = (Ok (None, empty_dict), w1)
    ∧ call_asgi (P:=store_down) default_mw abc_scope
                (λ s, to_asgi_event <$> reads_only s) alice_world
      = (Ok msgs, w')
    ∧ Forall2 asgi_forwarded [to_asgi response_start; to_asgi response_body]
              msgs.
Proof.
  refine (proj2 (C5_no_exception_reaches_the_caller (P:=store_down)
                   default_mw abc_scope
                   (λ s, to_asgi_event <$> reads_only s) alice_world _)
                cookie_abc "abc" _ _ _ _ _).
  - intros data. repeat constructor.
  - reflexivity.
  - reflexivity.
  - reflexivity.
  - reflexivity.
  - intros op. reflexivity.
Defined.

(** The store answers every call, and the application sends a
    [http.response.start] without ["headers"]: [KeyError] leaves the
    wrapper, and [__call__] with it. *)
Lemma C5_counterexample :
  (∀ op, store_fails (Platform:=store_up) op = false)
  ∧ asgi_type bare_start = "http.response.start"
  ∧ asgi_headers bare_start = None
  ∧ call_asgi (P:=store_up) default_mw (http_scope ∅) bare_app world0
    = (Raise KeyError, world0).
Proof. by repeat split. Qed.

Lemma C6_witness :
  loads toy_signer (dumps toy_signer "abc") = Ok "abc".
Proof.
  apply (C6_verify_inverts_sign toy_mac secret "abc"). apply toy_mac_urlsafe.
Defined.

(** A signed value whose tag lost its last character. *)
Lemma C7_witness :
  loads toy_signer "abc.q" = Raise BadSignature.
Proof.
  refine (proj1 (C7_invalid_cookie_fails_closed toy_mac secret "abc.q" _)).
  intros identifier Heq.
  assert (verify toy_mac secret "abc.q" = Ok identifier) as Hok.
  { rewrite Heq. apply verify_sign, urlsafe_no_dot, toy_mac_urlsafe. }
  vm_compute in Hok. discriminate Hok.
Defined.

Lemma C9_witness :
  call (P:=store_up) default_mw (http_scope ∅) reads_only world0
  = (Ok [response_start; response_body], world0).
Proof.
  apply (C9_anonymous_empty_request_is_untouched (P:=store_up) default_mw
           (http_scope ∅) reads_only world0); reflexivity.
Defined.

Lemma C10_witness :
  ∃ session_id data w',
    load_session (P:=store_up) default_mw ws_scope alice_world
    = (Ok (session_id, data), w')
    ∧ call (P:=store_up) default_mw ws_scope ws_app alice_world
      = (Ok [ws_accept; ws_frame], w')
    ∧ redis_db w' = redis_db alice_world.
Proof.
  destruct (proj2 (C10_other_messages_pass_through (P:=store_up) default_mw)
              ws_scope ws_app alice_world)
    as (sid & data & w' & Hload & Hcall & Hdb & _).
  - reflexivity.
  - intros data. repeat constructor; discriminate.
  - exists sid, data, w'. split; [exact Hload|]. split; [exact Hcall|exact Hdb].
Defined.



(** The same request, whose cookie verifies to [abc] and whose handler
    leaves the session empty, in three situations: the record is absent;
    the read fails; the stored text does not decode.  With the record
    absent the response clears the cookie and a delete is issued; in the
    other two the response carries no Set-Cookie header and no delete is
    issued. *)
Lemma C4_counterexample :
  let cleared :=
    headers_append "set-cookie"
      "session=; Path=/; HttpOnly; Max-Age=0; SameSite=lax" response_start in
  loads (signer default_mw) cookie_abc = Ok "abc"
  ∧ redis_db world0 !! "session:abc" = None
  ∧ (∃ w', call (P:=store_up) default_mw abc_scope (responds_with empty_dict)
                world0
           = (Ok [cleared; response_body], w')
           ∧ redis_log w' = [OpGet "session:abc"; OpDelete "session:abc"])
  ∧ (∃ w', call (P:=reads_fail) default_mw abc_scope
                (responds_with empty_dict) world0
           = (Ok [response_start; response_body], w')
           ∧ redis_log w' = [OpGet "session:abc"])
  ∧ (∃ w', call (P:=store_up) default_mw abc_scope (responds_with empty_dict)
                corrupt_world
           = (Ok [response_start; response_body], w')
           ∧ redis_log w' = [OpGet "session:abc"])
  ∧ cleared ≠ response_start.
Proof.
  intros cleared. split; [reflexivity|]. split; [reflexivity|].
  split; [eexists; split; [vm_compute; reflexivity|reflexivity]|].
  split; [eexists; split; [vm_compute; reflexivity|reflexivity]|].
  split; [eexists; split; [vm_compute; reflexivity|reflexivity]|].
  discriminate.
Qed.

(** C8, at [https_only=True].  The cookie verifies to [abc] and the
    handler leaves the session empty: the Set-Cookie header that clears
    the cookie has the attributes Path, HttpOnly, Max-Age=0 and SameSite,
    and no Secure attribute, while the cookie the same middleware issues
    has it. *)
Theorem C8_clearing_cookie_lacks_secure :
  https_only https_mw = true
  ∧ (∃ w',
       call (P:=store_up) https_mw abc_scope (responds_with empty_dict) world0
       = (Ok [headers_append "set-cookie"
                "session=; Path=/; HttpOnly; Max-Age=0; SameSite=lax"
                response_start;
              response_body], w'))
  ∧ cookie_attrs (clear_cookie https_mw)
    = ["Path=/"; "HttpOnly"; "Max-Age=0"; "SameSite=lax"]
  ∧ has_attr "Secure" (clear_cookie https_mw) = false
  ∧ cookie_attrs (issue_cookie https_mw "abc")
    = ["Path=/"; "HttpOnly"; "Max-Age=1209600"; "SameSite=lax"; "Secure"]
  ∧ has_attr "Secure" (issue_cookie https_mw "abc") = true.
Proof.
  split; [reflexivity|].
  split; [eexists; vm_compute; reflexivity|].
  by repeat split; vm_compute.
Qed.

(** The scenario of the specification, section 8: a request without
    cookie whose handler stores alice gets a cookie; the request that
    presents it sees alice; when its handler empties the session the
    response clears the cookie; a third request with the old cookie then
    sees the empty context, and the database holds nothing. *)
Example session_round_trip :
  let first := call (P:=store_up) default_mw (http_scope ∅)
                    (responds_with alice) world0 in
  let returning := http_scope {[ "session" := cookie_id0 ]} in
  let second := call (P:=store_up) default_mw returning logs_out
                     (snd first) in
  fst first
  = Ok [headers_append "set-cookie"
          ("session=" +:+ cookie_id0
           +:+ "; Path=/; HttpOnly; Max-Age=1209600; SameSite=lax")
          response_start;
        response_body]
  ∧ fst (load_session (P:=store_up) default_mw returning (snd first))
    = Ok (Some "id-0", alice)
  ∧ fst second
    = Ok [headers_append "set-cookie"
            "session=; Path=/; HttpOnly; Max-Age=0; SameSite=lax"
            response_start;
          response_body]
  ∧ fst (load_session (P:=store_up) default_mw returning (snd second))
    = Ok (Some "id-0", empty_dict)
  ∧ redis_db (snd second) = ∅.
Proof. by vm_compute. Qed.

(** * Further properties of the middleware *)

Lemma session_key_inj a b : session_key a = session_key b → a = b.
Proof. unfold session_key. apply (inj (String.append "session:")). Qed.

Section RoundTrips.
Context {P : Platform}.
Variable self : RedisSessionMiddleware.

(** X1.  What a request without identifier stores is what the next
    request reads: when the write at [http.response.start] and the read
    of the follow-up request go through, the signer gives back the
    identifier it signed, and [json.loads] inverts [json.dumps] on the
    context, the request that presents the issued cookie value proceeds
    with the new identifier and with the same context. *)
Theorem X1_issued_cookie_restores_the_context
    (ctx : pyval) (message : Message) (w : World) (payload : string)
    (next : Scope) :
  let new_id := uuid4_at (uuid_calls w) in
  let signed := dumps (signer self) new_id in
  msg_type message = "http.response.start" →
  truthy ctx = true →
  json_dumps ctx = Ok payload →
  str_truthy payload = true →
  json_loads payload = Ok ctx →
  str_truthy signed = true →
  loads (signer self) signed = Ok new_id →
  store_fails (OpSetex (session_key new_id) (max_age self) payload) = false →
  store_fails (OpGet (session_key new_id)) = false →
  scope_cookies next !! session_cookie self = Some signed →
  ∃ w1 w2,
    send_wrapper self None (Some ctx) message w
    = (Ok (headers_append "set-cookie" (issue_cookie self new_id) message), w1)
    ∧ load_session self next w1 = (Ok (Some new_id, ctx), w2)
    ∧ redis_db w2 !! session_key new_id = Some (payload, max_age self).
Proof.
  intros new_id signed Hty Ht Hj Hp Hl Hs Hv Hset Hget Hc.
  eexists _, _. split.
  { by apply (send_wrapper_store self None (Some ctx) message w payload). }
  simpl. fold new_id. unfold after_write. rewrite Hset.
  split.
  - apply (load_session_decoded self next _ signed new_id Hc Hs Hv payload
             (max_age self)); [done| |done..].
    simpl. apply lookup_insert_eq.
  - simpl. apply lookup_insert_eq.
Qed.

(** X2.  What a request with an emptied session deletes is gone for the
    next one: when the delete at [http.response.start] and the read of
    the follow-up request go through, the request that presents the old
    cookie keeps the identifier, proceeds with the empty context, and the
    database holds no record for the identifier. *)
Theorem X2_cleared_session_reads_empty
    (id v : string) (cur : option pyval) (message : Message) (w : World)
    (next : Scope) :
  msg_type message = "http.response.start" →
  truthy (default empty_dict cur) = false →
  store_fails (OpDelete (session_key id)) = false →
  store_fails (OpGet (session_key id)) = false →
  scope_cookies next !! session_cookie self = Some v →
  str_truthy v = true →
  loads (signer self) v = Ok id →
  ∃ w1 w2,
    send_wrapper self (Some id) cur message w
    = (Ok (headers_append "set-cookie" (clear_cookie self) message), w1)
    ∧ redis_db w1 !! session_key id = None
    ∧ load_session self next w1 = (Ok (Some id, empty_dict), w2).
Proof.
  intros Hty He Hdel Hget Hc Hv Hl. eexists _, _. split.
  { by apply send_wrapper_clear. }
  unfold after_write. rewrite Hdel.
  assert (delete (session_key id) (redis_db w) !! session_key id = None)
    as Hgone by apply lookup_delete_eq.
  split; [done|]. by apply (load_session_missing self next _ v).
Qed.

(** X7.  A cookie can outlive its record: when the store fails the write
    at [http.response.start], the message is handed on with the
    Set-Cookie for the signed identifier added at the end of its header
    list all the same, and the database is as it was; the follow-up
    request that presents the issued cookie value, with the record
    absent, keeps the identifier but proceeds with the empty context. *)
Theorem X7_cookie_issued_though_write_failed
    (session_id : option string) (ctx : pyval) (message : Message)
    (w : World) (payload : string) (next : Scope) :
  let new_id := target_id session_id w in
  let signed := dumps (signer self) new_id in
  let cookie :=
    session_cookie self +:+ "=" +:+ signed
    +:+ "; Path=/; HttpOnly; Max-Age=" +:+ pretty (max_age self)
    +:+ "; SameSite=lax" +:+ (if https_only self then "; Secure" else "") in
  msg_type message = "http.response.start" →
  truthy ctx = true →
  json_dumps ctx = Ok payload →
  store_fails (OpSetex (session_key new_id) (max_age self) payload) = true →
  redis_db w !! session_key new_id = None →
  store_fails (OpGet (session_key new_id)) = false →
  scope_cookies next !! session_cookie self = Some signed →
  str_truthy signed = true →
  loads (signer self) signed = Ok new_id →
  ∃ m' w1 w2,
    send_wrapper self session_id (Some ctx) message w = (Ok m', w1)
    ∧ msg_headers m' = msg_headers message ++ [("set-cookie", cookie)]
    ∧ set_cookies m' = set_cookies message ++ [cookie]
    ∧ redis_db w1 = redis_db w
    ∧ load_session self next w1 = (Ok (Some new_id, empty_dict), w2).
Proof.
  intros new_id signed cookie Hty Ht Hj Hset Hdb Hget Hc Hs Hv.
  assert (issue_cookie self new_id = cookie) as Hcookie
    by apply issue_cookie_form.
  eexists _, _, _. split.
  { by apply (send_wrapper_store self session_id (Some ctx) message w payload). }
  simpl. fold new_id. rewrite Hcookie. unfold after_write. rewrite Hset.
  assert (redis_db (after_call (OpSetex (session_key new_id) (max_age self)
                                        payload)
                               (after_choice session_id w)) = redis_db w)
    as Hsame by (by destruct session_id).
  split; [done|]. split; [apply set_cookies_append|]. split; [done|].
  apply (load_session_missing self next _ signed new_id Hc Hs Hv); [done|].
  by rewrite Hsame.
Qed.

(** X8.  A context that [json.dumps] rejects is not written and no call
    reaches the store, but the message is handed on with the Set-Cookie
    for the signed identifier added at the end of its header list all the
    same. *)
Theorem X8_unserialisable_context_still_sets_cookie
    (session_id : option string) (ctx : pyval) (message : Message)
    (w : World) (e : exn) :
  let new_id := target_id session_id w in
  let cookie :=
    session_cookie self +:+ "=" +:+ dumps (signer self) new_id
    +:+ "; Path=/; HttpOnly; Max-Age=" +:+ pretty (max_age self)
    +:+ "; SameSite=lax" +:+ (if https_only self then "; Secure" else "") in
  msg_type message = "http.response.start" →
  truthy ctx = true →
  json_dumps ctx = Raise e →
  ∃ m' w1,
    send_wrapper self session_id (Some ctx) message w = (Ok m', w1)
    ∧ msg_headers m' = msg_headers message ++ [("set-cookie", cookie)]
    ∧ set_cookies m' = set_cookies message ++ [cookie]
    ∧ redis_log w1 = redis_log w
    ∧ redis_db w1 = redis_db w.
Proof.
  intros new_id cookie Hty Ht Hj.
  assert (issue_cookie self new_id = cookie) as Hcookie
    by apply issue_cookie_form.
  eexists _, _. split.
  { by apply (send_wrapper_unserialisable self session_id (Some ctx) message w e). }
  simpl. fold new_id. rewrite Hcookie.
  split; [done|]. split; [apply set_cookies_append|]. by destruct session_id.
Qed.

End RoundTrips.

Section StoreInvariants.
Context {P : Platform}.
Variable self : RedisSessionMiddleware.

Lemma load_session_log scope w :
  ∃ sid data w',
    load_session self scope w = (Ok (sid, data), w')
    ∧ redis_db w' = redis_db w
    ∧ uuid_calls w' = uuid_calls w
    ∧ (redis_log w' = redis_log w
       ∨ ∃ id, redis_log w' = redis_log w ++ [OpGet (session_key id)]).
Proof.
  unfold load_session, try_except, bind, lift, redis_get, ret.
  destruct (scope_cookies scope !! session_cookie self) as [v|];
    [|by eexists _, _, _; eauto].
  destruct (str_truthy v); [|by eexists _, _, _; eauto].
  destruct (loads (signer self) v) as [sid|e]; simpl;
    [|by eexists _, _, _; eauto].
  destruct (store_fails (OpGet (session_key sid)));
    [by eexists _, _, _; simpl; eauto 7|].
  destruct (redis_db w !! session_key sid) as [[raw ttl]|]; simpl;
    [|by eexists _, _, _; simpl; eauto 7].
  destruct (str_truthy raw); [|by eexists _, _, _; simpl; eauto 7].
  destruct (json_loads raw); by eexists _, _, _; simpl; eauto 7.
Qed.

(** One message through the wrapper: the calls it adds to the log, and
    what they do to the database. *)
Lemma send_wrapper_effect session_id cur message w :
  ∃ m' w' ops,
    send_wrapper self session_id cur message w = (Ok m', w')
    ∧ redis_log w' = redis_log w ++ ops
    ∧ Forall (write_shape self session_id) ops
    ∧ (∀ key, (∀ id, session_id = Some id → key ≠ session_key id) →
              session_id ≠ None →
              redis_db w' !! key = redis_db w !! key)
    ∧ (∀ key, (∀ id, key ≠ session_key id) →
              redis_db w' !! key = redis_db w !! key)
    ∧ (session_id ≠ None → uuid_calls w' = uuid_calls w)
    ∧ (ttl_bounded (max_age self) (redis_db w) →
       ttl_bounded (max_age self) (redis_db w')).
Proof.
  destruct (decide (msg_type message = "http.response.start")) as [Hty|Hty].
  2:{ rewrite send_wrapper_other by done. exists message, w, [].
      rewrite app_nil_r. by repeat split. }
  destruct (truthy (default empty_dict cur)) eqn:Ht.
  - destruct (json_dumps (default empty_dict cur)) as [payload|e] eqn:Hj.
    + rewrite (send_wrapper_store _ _ _ _ _ payload) by done.
      set (new_id := target_id session_id w).
      eexists _, _, [OpSetex (session_key new_id) (max_age self) payload].
      split; [done|]. unfold after_write.
      assert (write_shape self session_id
                (OpSetex (session_key new_id) (max_age self) payload)) as Hshape.
      { split; [done|]. split; [|by eauto].
        exists new_id. split; [done|]. by intros sid ->. }
      assert (redis_db (after_choice session_id w) = redis_db w) as Hdb
        by (by destruct session_id).
      assert (redis_log (after_choice session_id w) = redis_log w) as Hlog
        by (by destruct session_id).
      destruct (store_fails _); simpl; rewrite ?Hdb, ?Hlog.
      all: split; [done|]; split; [by constructor|].
      all: repeat split; try done; try (by destruct session_id).
      * intros key Hkey Hsome. destruct session_id as [sid|]; [|done].
        apply lookup_insert_ne. intros Heq. by apply (Hkey sid).
      * intros key Hkey. apply lookup_insert_ne. intros Heq.
        by apply (Hkey new_id).
      * intros Hb key value t.
        destruct (decide (key = session_key new_id)) as [->|Hne].
        -- rewrite lookup_insert_eq. by intros [= <- <-].
        -- rewrite lookup_insert_ne by done. apply Hb.
    + rewrite (send_wrapper_unserialisable _ _ _ _ _ e) by done.
      eexists _, _, []. split; [done|].
      destruct session_id; simpl; rewrite app_nil_r; by repeat split.
  - destruct session_id as [sid|].
    + rewrite send_wrapper_clear by done.
      eexists _, _, [OpDelete (session_key sid)]. split; [done|].
      unfold after_write.
      assert (write_shape self (Some sid) (OpDelete (session_key sid)))
        as Hshape by (by exists sid).
      destruct (store_fails _); simpl.
      all: split; [done|]; split; [by constructor|].
      all: repeat split; try done.
      * intros key Hkey _. apply lookup_delete_ne. intros Heq.
        by apply (Hkey sid).
      * intros key Hkey. apply lookup_delete_ne. intros Heq.
        by apply (Hkey sid).
      * intros Hb key value t.
        destruct (decide (key = session_key sid)) as [->|Hne].
        -- by rewrite lookup_delete_eq.
        -- rewrite lookup_delete_ne by done. apply Hb.
    + rewrite send_wrapper_quiet by done. exists message, w, [].
      rewrite app_nil_r. by repeat split.
Qed.

Lemma drive_effect session_id cur evs w :
  ∃ ms w' ops,
    drive self session_id cur evs w = (Ok ms, w')
    ∧ redis_log w' = redis_log w ++ ops
    ∧ Forall (write_shape self session_id) ops
    ∧ (∀ key, (∀ id, session_id = Some id → key ≠ session_key id) →
              session_id ≠ None →
              redis_db w' !! key = redis_db w !! key)
    ∧ (∀ key, (∀ id, key ≠ session_key id) →
              redis_db w' !! key = redis_db w !! key)
    ∧ (session_id ≠ None → uuid_calls w' = uuid_calls w)
    ∧ (ttl_bounded (max_age self) (redis_db w) →
       ttl_bounded (max_age self) (redis_db w')).
Proof.
  revert cur w. induction evs as [|[s|m] evs IH]; intros cur w; simpl.
  - exists [], w, []. rewrite app_nil_r. by repeat split.
  - apply IH.
  - destruct (send_wrapper_effect session_id cur m w)
      as (m' & w1 & ops1 & Hs & Hl1 & Hf1 & Hk1 & Hn1 & Hu1 & Hb1).
    destruct (IH cur w1)
      as (ms & w2 & ops2 & Hd & Hl2 & Hf2 & Hk2 & Hn2 & Hu2 & Hb2).
    exists (m' :: ms), w2, (ops1 ++ ops2). unfold bind, ret.
    rewrite Hs, Hd. split; [done|].
    split; [by rewrite Hl2, Hl1, (assoc_L (++))|].
    split; [by apply Forall_app|].
    split; [intros key Hkey Hsome; by rewrite Hk2, Hk1|].
    split; [intros key Hkey; by rewrite Hn2, Hn1|].
    split; [intros Hsome; by rewrite Hu2, Hu1|].
    auto.
Qed.

(** What the read path leaves in the log: nothing, or the read of the
    key of the identifier the cookie verifies to; the latter whenever the
    request proceeds with an identifier, which then is that one. *)
Lemma load_session_trace scope w :
  ∃ sid data w',
    load_session self scope w = (Ok (sid, data), w')
    ∧ (redis_log w' = redis_log w
       ∨ ∃ v id, scope_cookies scope !! session_cookie self = Some v
                 ∧ loads (signer self) v = Ok id
                 ∧ redis_log w' = redis_log w ++ [OpGet (session_key id)])
    ∧ (∀ id, sid = Some id →
             ∃ v, scope_cookies scope !! session_cookie self = Some v
                  ∧ loads (signer self) v = Ok id
                  ∧ redis_log w' = redis_log w ++ [OpGet (session_key id)]).
Proof.
  unfold load_session, try_except, bind, lift, redis_get, ret.
  destruct (scope_cookies scope !! session_cookie self) as [v|] eqn:Hc;
    [|by eexists _, _, _; split; [|split; [left|]]].
  destruct (str_truthy v);
    [|by eexists _, _, _; split; [|split; [left|]]].
  destruct (loads (signer self) v) as [id|e] eqn:Hl; simpl;
    [|by eexists _, _, _; split; [|split; [left|]]].
  assert (∃ v0 id0, Some v = Some v0 ∧ loads (signer self) v0 = Ok id0
                    ∧ redis_log w ++ [OpGet (session_key id)]
                      = redis_log w ++ [OpGet (session_key id0)]) as Hread
    by eauto.
  destruct (store_fails (OpGet (session_key id)));
    [by eexists _, _, _; split; [|split; [right|]]|].
  destruct (redis_db w !! session_key id) as [[raw ttl]|]; simpl.
  2:{ eexists _, _, _. split; [done|]. split; [by right|].
      intros id' [= <-]. eauto. }
  destruct (str_truthy raw).
  2:{ eexists _, _, _. split; [done|]. split; [by right|].
      intros id' [= <-]. eauto. }
  destruct (json_loads raw); simpl.
  - eexists _, _, _. split; [done|]. split; [by right|].
    intros id' [= <-]. eauto.
  - by eexists _, _, _; split; [|split; [right|]].
Qed.

(** X3.  The store calls of a request, whatever the application and the
    store do.  The read path makes at most one call, the read of the key
    of the identifier the cookie verifies to, and it has made that read
    whenever the request proceeds with an identifier, which then is that
    one.  After it the request makes only writes of the shape
    [write_shape] for the identifier it proceeds with: [SETEX] with the
    configured time-to-live of the serialisation of a non-empty context,
    or [DEL], never a read, both on the key of that identifier; without
    an identifier there is no [DEL]. *)
Theorem X3_store_calls_of_a_request
    (scope : Scope) (app : ASGIApp) (w : World) :
  handled scope = true →
  ∃ session_id data w1 msgs w' writes,
    load_session self scope w = (Ok (session_id, data), w1)
    ∧ (redis_log w1 = redis_log w
       ∨ ∃ v id, scope_cookies scope !! session_cookie self = Some v
                 ∧ loads (signer self) v = Ok id
                 ∧ redis_log w1 = redis_log w ++ [OpGet (session_key id)])
    ∧ (∀ id, session_id = Some id →
             ∃ v, scope_cookies scope !! session_cookie self = Some v
                  ∧ loads (signer self) v = Ok id
                  ∧ redis_log w1 = redis_log w ++ [OpGet (session_key id)])
    ∧ call self scope app w = (Ok msgs, w')
    ∧ redis_log w' = redis_log w1 ++ writes
    ∧ Forall (write_shape self session_id) writes
    ∧ (∀ op id, op ∈ writes → session_id = Some id →
                op = OpDelete (session_key id)
                ∨ ∃ value, op = OpSetex (session_key id) (max_age self) value)
    ∧ (session_id = None → ∀ key, OpDelete key ∉ writes).
Proof.
  intros Hh. rewrite call_handled by done.
  destruct (load_session_trace scope w)
    as (sid & data & w1 & Hload & Hlog & Hsome).
  rewrite Hload.
  destruct (drive_effect sid (Some data) (app (attach_session data scope)) w1)
    as (ms & w2 & ops & Hd & Hl & Hf & _).
  exists sid, data, w1, ms, w2, ops.
  repeat (split; [done|]). split.
  - intros op id Hin ->. rewrite Forall_forall in Hf.
    specialize (Hf op Hin). destruct op as [key|key ttl value|key]; simpl in Hf.
    + done.
    + destruct Hf as (-> & (id' & -> & Hid) & _). right.
      exists value. by rewrite (Hid id eq_refl).
    + destruct Hf as (sid & [= <-] & ->). by left.
  - intros -> key Hin. rewrite Forall_forall in Hf.
    by destruct (Hf _ Hin) as (sid & ? & _).
Qed.

(** X4.  A request that proceeds with identifier [id] leaves the records
    of all other keys as they are and draws no identifier, whatever the
    application sends and whichever calls the store fails. *)
Theorem X4_other_sessions_untouched
    (id : string) (cur : option pyval) (evs : list Event) (w : World)
    (key : string) :
  key ≠ session_key id →
  ∃ msgs w',
    drive self (Some id) cur evs w = (Ok msgs, w')
    ∧ redis_db w' !! key = redis_db w !! key
    ∧ uuid_calls w' = uuid_calls w.
Proof.
  intros Hkey.
  destruct (drive_effect (Some id) cur evs w)
    as (ms & w' & ops & Hd & _ & _ & Hk & _ & Hu & _).
  exists ms, w'. split; [done|]. split.
  - apply Hk; [|done]. by intros id' [= <-].
  - by apply Hu.
Qed.

(** X5.  Keys outside the [session:] namespace are never written: after
    any request the database agrees with the one before on every key that
    is not [session:<id>] for some [id]. *)
Theorem X5_foreign_keys_untouched
    (scope : Scope) (app : ASGIApp) (w : World) (key : string) :
  (∀ id, key ≠ session_key id) →
  ∃ msgs w',
    call self scope app w = (Ok msgs, w')
    ∧ redis_db w' !! key = redis_db w !! key.
Proof.
  intros Hkey. destruct (handled scope) eqn:Hh.
  - rewrite call_handled by done.
    destruct (load_session_log scope w)
      as (sid & data & w1 & -> & Hdb & _).
    destruct (drive_effect sid (Some data) (app (attach_session data scope)) w1)
      as (ms & w2 & ops & -> & _ & _ & _ & Hn & _).
    exists ms, w2. split; [done|]. by rewrite Hn, Hdb.
  - unfold call. rewrite Hh. simpl. by eexists _, _.
Qed.

(** X6.  Requests keep the bound on the lifetime of records: if no record
    of the database is set to live longer than [max_age] before a
    request, none is after it. *)
Theorem X6_time_to_live_stays_bounded
    (scope : Scope) (app : ASGIApp) (w : World) :
  ttl_bounded (max_age self) (redis_db w) →
  ∃ msgs w',
    call self scope app w = (Ok msgs, w')
    ∧ ttl_bounded (max_age self) (redis_db w').
Proof.
  intros Hb. destruct (handled scope) eqn:Hh.
  - rewrite call_handled by done.
    destruct (load_session_log scope w)
      as (sid & data & w1 & -> & Hdb & _).
    destruct (drive_effect sid (Some data) (app (attach_session data scope)) w1)
      as (ms & w2 & ops & -> & _ & _ & _ & _ & _ & Hb2).
    exists ms, w2. split; [done|]. apply Hb2. by rewrite Hdb.
  - unfold call. rewrite Hh. simpl. by eexists _, _.
Qed.

(** X9.  Expiry slides: a request with a stored, non-empty session whose
    handler leaves the session alone still rewrites the record and resets
    its time-to-live to [max_age], and its [http.response.start] reaches
    the client with the Set-Cookie for the same signed identifier added
    at the end of its header list. *)
Theorem X9_untouched_session_is_rewritten
    (scope : Scope) (app : ASGIApp) (w : World) (v id raw : string)
    (ttl : Z) (data : pyval) (payload : string) (message : Message)
    (evs : list Event) :
  let cookie :=
    session_cookie self +:+ "=" +:+ dumps (signer self) id
    +:+ "; Path=/; HttpOnly; Max-Age=" +:+ pretty (max_age self)
    +:+ "; SameSite=lax" +:+ (if https_only self then "; Secure" else "") in
  handled scope = true →
  scope_cookies scope !! session_cookie self = Some v →
  str_truthy v = true →
  loads (signer self) v = Ok id →
  store_fails (OpGet (session_key id)) = false →
  redis_db w !! session_key id = Some (raw, ttl) →
  str_truthy raw = true →
  json_loads raw = Ok data →
  truthy data = true →
  json_dumps data = Ok payload →
  store_fails (OpSetex (session_key id) (max_age self) payload) = false →
  app (attach_session data scope) = Send message :: evs →
  msg_type message = "http.response.start" →
  Forall (λ m, msg_type m ≠ "http.response.start") (sent evs) →
  ∃ m' w',
    call self scope app w = (Ok (m' :: sent evs), w')
    ∧ msg_type m' = msg_type message
    ∧ msg_rest m' = msg_rest message
    ∧ msg_headers m' = msg_headers message ++ [("set-cookie", cookie)]
    ∧ set_cookies m' = set_cookies message ++ [cookie]
    ∧ redis_db w'
      = <[session_key id := (payload, max_age self)]> (redis_db w)
    ∧ redis_log w'
      = redis_log w ++ [OpGet (session_key id);
                        OpSetex (session_key id) (max_age self) payload].
Proof.
  intros cookie Hh Hc Hv Hl Hget Hdb Hraw Hjl Ht Hjd Hset Happ Hty Hrest.
  assert (issue_cookie self id = cookie) as Hcookie
    by apply issue_cookie_form.
  rewrite call_handled by done.
  rewrite (load_session_decoded self scope w v id Hc Hv Hl raw ttl data)
    by done.
  rewrite Happ. simpl. unfold bind, ret.
  rewrite (send_wrapper_store self (Some id) (Some data) message _ payload)
    by done.
  rewrite drive_no_start by done. simpl. rewrite Hcookie.
  unfold after_write. rewrite Hset. eexists _, _. split; [done|].
  repeat (split; [done || apply set_cookies_append|]).
  simpl. by rewrite <- (assoc_L (++)).
Qed.

End StoreInvariants.

(** * Properties of the handlers *)

Section Guards.
Import Handlers.
Local Open Scope handler_scope.

Lemma get_current_user_dict d :
  get_current_user (PDict d)
  = match assoc "user" d with
    | Some user => if truthy user then Done user
                   else Fail (HTTPException 401 "Not authenticated")
    | None => Fail (HTTPException 401 "Not authenticated")
    end.
Proof.
  unfold get_current_user. simpl.
  destruct (assoc "user" d) as [user|]; simpl; [|done].
  by destruct (truthy user).
Qed.

(** X10.  A session without the user entry, or with a user entry that is
    falsy, is refused by every guard with 401, whatever its token says
    about roles: [require_admin] answers 401 and not 403, and [me]
    answers with status 401. *)
Theorem X10_anonymous_session_gets_401 (d : list (string * pyval)) :
  (assoc "user" d = None
   ∨ ∃ user, assoc "user" d = Some user ∧ truthy user = false) →
  let unauthenticated := HTTPException 401 "Not authenticated" in
  get_current_user (PDict d) = Fail unauthenticated
  ∧ require_authenticated (PDict d) = Fail unauthenticated
  ∧ require_admin (PDict d) = Fail unauthenticated
  ∧ inject_user_context (PDict d) = Fail unauthenticated
  ∧ (∀ student_id db, student_detail student_id (PDict d) db
                      = Fail unauthenticated)
  ∧ me (PDict d) = Done (401, PDict [("detail", PStr "Not authenticated")]).
Proof.
  intros Huser unauthenticated.
  assert (get_current_user (PDict d) = Fail unauthenticated) as Hgcu.
  { rewrite get_current_user_dict.
    destruct Huser as [Hn|(user & Hs & Hf)]; [by rewrite Hn|].
    by rewrite Hs, Hf. }
  split; [done|]. split; [done|].
  unfold require_admin, inject_user_context, student_detail,
    require_authenticated.
  rewrite Hgcu. repeat split; try done.
  unfold me. simpl.
  destruct Huser as [Hn|(user & Hs & Hf)]; [by rewrite Hn|].
  rewrite Hs. simpl. by rewrite Hf.
Qed.

(** X12.  The defaults of [get_user_roles] cover missing keys: when the
    token, its [resource_access], the client entry or its [roles] is
    missing from the session, the roles are the empty list, so a
    logged-in user is refused by [require_admin] with 403. *)
Theorem X12_missing_role_claims_mean_no_roles (d : list (string * pyval)) :
  (assoc "token" d = None
   ∨ ∃ token, assoc "token" d = Some (PDict token)
      ∧ (assoc "resource_access" token = None
         ∨ ∃ access, assoc "resource_access" token = Some (PDict access)
            ∧ (assoc "student-app" access = None
               ∨ ∃ client, assoc "student-app" access = Some (PDict client)
                  ∧ assoc "roles" client = None))) →
  get_user_roles (PDict d) = Done (PList [])
  ∧ ∀ user, get_current_user (PDict d) = Done user →
            require_admin (PDict d)
            = Fail (HTTPException 403 "Admin access required").
Proof.
  intros Hmissing.
  assert (get_user_roles (PDict d) = Done (PList [])) as Hroles.
  { unfold get_user_roles. simpl.
    destruct Hmissing as [Hn|(token & Hs & Htoken)]; [by rewrite Hn|].
    rewrite Hs. simpl.
    destruct Htoken as [Hn|(access & Ha & Haccess)]; [by rewrite Hn|].
    rewrite Ha. simpl.
    destruct Haccess as [Hn|(client & Hc & Hr)]; [by rewrite Hn|].
    rewrite Hc. simpl. by rewrite Hr. }
  split; [done|]. intros user Huser. unfold require_admin.
  by rewrite Huser, Hroles.
Qed.

(** X13.  The defaults do not cover entries that are present but are not
    dicts: a token entry such as JSON [null] makes [get_user_roles] raise
    [AttributeError], and with it [require_admin] for a logged-in user,
    instead of counting as no roles. *)
Theorem X13_non_dict_token_raises
    (d : list (string * pyval)) (token : pyval) :
  assoc "token" d = Some token →
  (∀ items, token ≠ PDict items) →
  get_user_roles (PDict d) = Fail AttributeError
  ∧ ∀ user, get_current_user (PDict d) = Done user →
            require_admin (PDict d) = Fail AttributeError.
Proof.
  intros Htoken Hnot.
  assert (get_user_roles (PDict d) = Fail AttributeError) as Hroles.
  { unfold get_user_roles. simpl. rewrite Htoken. simpl.
    destruct token; try done. by destruct (Hnot d0). }
  split; [done|]. intros user Huser. unfold require_admin.
  by rewrite Huser, Hroles.
Qed.

(** X14.  The admin test is Python's [in]: when the roles claim is a
    string and not a list, any string that contains ["admin"] passes
    [require_admin]. *)
Theorem X14_string_roles_match_by_substring
    (session user : pyval) (roles : string) :
  get_current_user session = Done user →
  get_user_roles session = Done (PStr roles) →
  require_admin session
  = if substring "admin" roles then Done user
    else Fail (HTTPException 403 "Admin access required").
Proof.
  intros Huser Hroles. unfold require_admin. rewrite Huser, Hroles. simpl.
  by destruct (substring "admin" roles).
Qed.

(** X15.  [me] and the guards agree: [me] answers with status 401
    exactly when [get_current_user] raises 401, and when it answers with
    status 200 the session passes [inject_user_context] and the roles in
    the body are the roles that [get_user_roles] extracts. *)
Theorem X15_me_agrees_with_the_guards (session : pyval) :
  (me session = Done (401, PDict [("detail", PStr "Not authenticated")])
   ↔ get_current_user session
     = Fail (HTTPException 401 "Not authenticated"))
  ∧ ∀ body,
      me session = Done (200, PDict body) →
      ∃ user roles,
        inject_user_context session = Done (user, roles)
        ∧ assoc "roles" body = Some roles
        ∧ py_get user "sub" PNone = Done (default PNone (assoc "sub" body)).
Proof.
  unfold me, inject_user_context, get_current_user.
  destruct session as [| | | | |d|]; try (split; [split|]; done).
  simpl. fold (get_user_roles (PDict d)).
  destruct (truthy (default PNone (assoc "user" d))) eqn:Ht; simpl.
  - split; [split; [|done]|].
    + unfold get_user_roles. simpl.
      repeat match goal with
             | |- context [and_then ?o _] => destruct o; simpl; try done
             end.
    + intros body. unfold get_user_roles. simpl.
      repeat match goal with
             | |- context [and_then ?o _] =>
                 let H := fresh "Hget" in
                 destruct o eqn:H; simpl; try done
             end.
      intros [= <-]. eexists _, _. split; [done|]. split; [done|].
      simpl. done.
  - split; [done|]. intros body [=].
Qed.

End Guards.

Section Tokens.
Import Handlers.
Local Open Scope handler_scope.
Context {P : Platform}.
Variable urlsafe_b64decode : string → option string.

Lemma length_split_on c s : length (split_on c s) = S (count_char c s).
Proof.
  induction s as [|c' s IH]; simpl; [done|].
  destruct (Ascii.eqb c' c); simpl; [by rewrite IH|].
  destruct (split_on c s); simpl in *; congruence.
Qed.

Lemma split_on_absent c s : occurs c s = false → split_on c s = [s].
Proof.
  induction s as [|c' s IH]; simpl; [done|].
  intros [Hc Hs]%orb_false_iff. by rewrite Hc, (IH Hs).
Qed.

Lemma string_length_app (a b : string) :
  String.length (a +:+ b) = (String.length a + String.length b)%nat.
Proof.
  induction a as [|c a IH]; [done|]. rewrite append_cons. simpl. by rewrite IH.
Qed.

Lemma str_repeat_length c n :
  String.length (str_repeat (String c EmptyString) n) = n.
Proof.
  induction n as [|n IH]; [done|].
  cbn [str_repeat]. by rewrite string_length_app, IH.
Qed.

(** X16.  A token that does not consist of exactly three parts separated
    by dots, that is, one whose number of dots is not two, decodes to the
    empty dict, whatever the decoders would say. *)
Theorem X16_jwt_needs_three_parts (token : string) :
  count_char "." token ≠ 2%nat →
  _decode_jwt_payload urlsafe_b64decode token = PDict [].
Proof.
  intros Hdots. unfold _decode_jwt_payload. rewrite length_split_on.
  destruct (Nat.eqb_spec (S (count_char "." token)) 3) as [Heq|Hne]; [|done].
  lia.
Qed.

(** X17.  The padding that is added before decoding always brings the
    length to the next multiple of four strictly above it: between one and
    four [=] signs, four of them when the length already was a
    multiple of four. *)
Theorem X17_padding_reaches_a_multiple_of_four (payload : string) :
  let n := String.length payload in
  let padded := String.length (pad_base64 payload) in
  (padded `mod` 4 = 0)%nat
  ∧ (n < padded ≤ n + 4)%nat
  ∧ ((n `mod` 4 = 0)%nat → padded = (n + 4)%nat).
Proof.
  intros n padded. subst padded. unfold pad_base64.
  rewrite string_length_app, str_repeat_length. fold n.
  pose proof (Nat.mod_upper_bound n 4) as Hlt.
  pose proof (Nat.div_mod_eq n 4) as Hdiv.
  split; [|split; lia].
  replace (n + (4 - n `mod` 4))%nat with ((n `div` 4 + 1) * 4)%nat by lia.
  apply Nat.Div0.mod_mul.
Qed.

Lemma jwt_parts header payload signature :
  occurs "." header = false →
  occurs "." payload = false →
  occurs "." signature = false →
  split_on "." (header +:+ String "." (payload +:+ String "." signature))
  = [header; payload; signature].
Proof.
  intros Hh Hp Hs.
  by rewrite !split_on_app, split_on_absent.
Qed.

(** X18.  Only the middle part of a token is looked at: two tokens with
    the same payload part decode to the same claims, whatever their
    header and signature parts are. *)
Theorem X18_jwt_signature_is_not_checked
    (header signature header' signature' payload : string) :
  occurs "." payload = false →
  occurs "." header = false → occurs "." signature = false →
  occurs "." header' = false → occurs "." signature' = false →
  _decode_jwt_payload urlsafe_b64decode
    (header +:+ String "." (payload +:+ String "." signature))
  = _decode_jwt_payload urlsafe_b64decode
      (header' +:+ String "." (payload +:+ String "." signature')).
Proof.
  intros Hp Hh Hs Hh' Hs'. unfold _decode_jwt_payload.
  by rewrite !jwt_parts.
Qed.

Lemma assoc_set_eq key value d :
  assoc key (assoc_set key value d) = Some value.
Proof.
  induction d as [|[k v] d IH]; simpl.
  - by rewrite String.eqb_refl.
  - destruct (String.eqb k key) eqn:Hk; simpl; by rewrite Hk.
Qed.

Lemma assoc_set_ne key key' value d :
  key ≠ key' → assoc key' (assoc_set key value d) = assoc key' d.
Proof.
  intros Hne. induction d as [|[k v] d IH]; simpl.
  - by apply String.eqb_neq in Hne as ->.
  - destruct (String.eqb k key) eqn:Hk; simpl.
    + apply String.eqb_eq in Hk as ->.
      by apply String.eqb_neq in Hne as ->.
    + by rewrite IH.
Qed.

(** X19.  Login round trip of the API: for a token response whose
    userinfo is a dict, whose access token is a string and decodes to a
    dict of claims, [callback] returns on a dict session, and afterwards
    [get_current_user] returns the user entry built from the userinfo
    (so the guards no longer answer 401, even when the userinfo is empty)
    and [get_user_roles] returns the roles of the client in the decoded
    claims. *)
Theorem X19_callback_logs_the_user_in
    (settings : Settings)
    (token userinfo claims session : list (string * pyval))
    (access_token : string) :
  default (PDict []) (assoc "userinfo" token) = PDict userinfo →
  default (PStr "") (assoc "access_token" token) = PStr access_token →
  _decode_jwt_payload urlsafe_b64decode access_token = PDict claims →
  ∃ session',
    api_callback urlsafe_b64decode settings (PDict token) (PDict session)
    = (Done (frontend_url settings), session')
    ∧ get_current_user session' = Done (user_entry userinfo)
    ∧ get_user_roles session'
      = (let* client :=
           py_get (default (PDict []) (assoc "resource_access" claims))
                  "student-app" (PDict []) in
         py_get client "roles" (PList [])).
Proof.
  intros Hinfo Htoken Hclaims. eexists. split.
  { unfold api_callback, h_bind, h_lift, h_ret, session_setitem. simpl.
    rewrite Hinfo, Htoken. simpl. rewrite Hclaims. simpl. reflexivity. }
  split.
  - rewrite get_current_user_dict.
    rewrite assoc_set_ne by done. by rewrite assoc_set_eq.
  - unfold get_user_roles. simpl. by rewrite assoc_set_eq.
Qed.

(** X23.  [logout] of the API empties the session only if it gets that
    far: with no token entry, or a token entry that is a dict, it returns,
    having posted the refresh token when that is non-empty, and leaves the
    session empty; with a token entry that is not a dict it raises
    [AttributeError] before clearing, and the session stays as it was, so
    the user stays logged in. *)
Theorem X23_api_logout_clears_only_on_return (d : list (string * pyval)) :
  (∀ token,
     default (PDict []) (assoc "token" d) = PDict token →
     let refresh := default (PStr "") (assoc "refresh_token" token) in
     api_logout (PDict d)
     = (Done (if truthy refresh then Some refresh else None,
              PDict [("redirect", PStr "/")]),
        PDict [])
     ∧ get_current_user (PDict [])
       = Fail (HTTPException 401 "Not authenticated"))
  ∧ (∀ token,
       assoc "token" d = Some token →
       (∀ items, token ≠ PDict items) →
       api_logout (PDict d) = (Fail AttributeError, PDict d)).
Proof.
  split.
  - intros token Htoken refresh.
    unfold api_logout, h_bind, h_lift, h_ret, session_clear. simpl.
    by rewrite Htoken.
  - intros token Htoken Hnot.
    unfold api_logout, h_bind, h_lift, h_ret, session_clear. simpl.
    rewrite Htoken. simpl. destruct token; try done. by destruct (Hnot d0).
Qed.



End Tokens.

Section Routes.
Import Handlers.
Local Open Scope handler_scope.
Context {P : Platform}.
Variable urlsafe_b64decode : string → option string.
Variable self : RedisSessionMiddleware.



(** X22.  The access rule of [student_detail], for a logged-in user (a
    dict) whose roles are a list.  An id outside the signed 64-bit range
    makes the query raise [OverflowError]; for an id within it a missing
    row is 404; otherwise the row is returned unless the roles contain
    ["student"] and neither ["admin"] nor ["staff"] and the row's
    [keycloak_user_id] differs from the user's [sub], which is 403.  In
    particular a user whose roles do not contain ["student"], such as one
    without any role, is given every row. *)
Theorem X22_student_detail_access_rule
    (student_id : Z) (session : pyval) (db : Database)
    (user : list (string * pyval)) (roles : list pyval) :
  get_current_user session = Done (PDict user) →
  get_user_roles session = Done (PList roles) →
  let has := λ role, existsb (py_eq_str role) roles in
  student_detail student_id session db
  = if (- 2 ^ 63 <=? student_id) && (student_id <? 2 ^ 63) then
      match find (λ s, student_pk s =? student_id) (students db) with
      | None => Fail (HTTPException 404 "Student not found")
      | Some student =>
          if has "student" && negb (has "admin") && negb (has "staff")
             && differs (keycloak_user_id student)
                        (default PNone (assoc "sub" user))
          then Fail (HTTPException 403 "Access denied")
          else Done (_student_to_response db student)
      end
    else Fail OverflowError.
Proof.
  intros Huser Hroles has. unfold student_detail, require_authenticated.
  rewrite Huser, Hroles. simpl. unfold student_by_id.
  destruct ((- 2 ^ 63 <=? student_id) && (student_id <? 2 ^ 63)); [|done].
  simpl.
  destruct (find _ (students db)) as [student|]; [|done].
  fold (has "student") (has "admin") (has "staff").
  by destruct (has "student"), (has "admin"), (has "staff").
Qed.

End Routes.

(** ** The further properties on concrete requests *)

Import Cases.

Lemma X1_witness :
  ∃ w1 w2,
    send_wrapper (P:=store_up) default_mw None (Some alice) response_start
                 world0
    = (Ok (headers_append "set-cookie" (issue_cookie default_mw "id-0")
                          response_start), w1)
    ∧ load_session (P:=store_up) default_mw id0_scope w1
      = (Ok (Some "id-0", alice), w2).
Proof.
  destruct (X1_issued_cookie_restores_the_context (P:=store_up) default_mw
              alice response_start world0 alice_json id0_scope)
    as (w1 & w2 & Hs & Hl & _); try reflexivity.
  exists w1, w2. split; [exact Hs | exact Hl].
Defined.

Lemma X2_witness :
  ∃ w1 w2,
    send_wrapper (P:=store_up) default_mw (Some "abc") (Some empty_dict)
                 response_start alice_world
    = (Ok (headers_append "set-cookie" (clear_cookie default_mw)
                          response_start), w1)
    ∧ redis_db w1 !! session_key "abc" = None
    ∧ load_session (P:=store_up) default_mw abc_scope w1
      = (Ok (Some "abc", empty_dict), w2).
Proof.
  apply (X2_cleared_session_reads_empty (P:=store_up) default_mw "abc"
           cookie_abc (Some empty_dict) response_start alice_world abc_scope);
    reflexivity.
Defined.

Lemma X4_witness :
  ∃ msgs w',
    drive (P:=store_up) default_mw (Some "abc") None
          (responds_with alice abc_scope) alice_world
    = (Ok msgs, w')
    ∧ redis_db w' !! "session:other" = redis_db alice_world !! "session:other"
    ∧ uuid_calls w' = uuid_calls alice_world.
Proof.
  apply (X4_other_sessions_untouched (P:=store_up) default_mw "abc").
  vm_compute. discriminate.
Defined.

Lemma X5_witness :
  ∃ msgs w',
    call (P:=store_up) default_mw abc_scope (responds_with alice) alice_world
    = (Ok msgs, w')
    ∧ redis_db w' !! "config" = redis_db alice_world !! "config".
Proof.
  apply (X5_foreign_keys_untouched (P:=store_up) default_mw abc_scope
           (responds_with alice) alice_world "config").
  intros id Heq. cbv in Heq. discriminate Heq.
Defined.

Lemma X6_witness :
  ∃ msgs w',
    call (P:=store_up) default_mw abc_scope (responds_with alice) alice_world
    = (Ok msgs, w')
    ∧ ttl_bounded 1209600 (redis_db w').
Proof.
  apply (X6_time_to_live_stays_bounded (P:=store_up) default_mw abc_scope
           (responds_with alice) alice_world).
  intros key value t Hrec. simpl in Hrec.
  apply lookup_singleton_Some in Hrec as [_ Hrec].
  injection Hrec as _ <-. reflexivity.
Defined.

Lemma X7_witness :
  ∃ m' w1 w2,
    send_wrapper (P:=writes_fail) default_mw None (Some alice) response_start
                 world0
    = (Ok m', w1)
    ∧ msg_headers m'
      = [("content-type", "text/html");
         ("set-cookie",
          "session=" +:+ cookie_id0
          +:+ "; Path=/; HttpOnly; Max-Age=1209600; SameSite=lax")]
    ∧ redis_db w1 = redis_db world0
    ∧ load_session (P:=writes_fail) default_mw id0_scope w1
      = (Ok (Some "id-0", empty_dict), w2).
Proof.
  destruct (X7_cookie_issued_though_write_failed (P:=writes_fail) default_mw
              None alice response_start world0 alice_json id0_scope)
    as (m' & w1 & w2 & Hs & Hh & _ & Hdb & Hl); try reflexivity.
  exists m', w1, w2. split; [exact Hs|]. split; [exact Hh|].
  split; [exact Hdb | exact Hl].
Defined.

(** A session that holds [bytes], which [json.dumps] does not take. *)
Lemma X8_witness :
  ∃ m' w1,
    send_wrapper (P:=store_up) default_mw (Some "abc")
                 (Some (PDict [("avatar", PBytes "png")])) response_start
                 world0
    = (Ok m', w1)
    ∧ msg_headers m'
      = [("content-type", "text/html");
         ("set-cookie",
          "session=" +:+ cookie_abc
          +:+ "; Path=/; HttpOnly; Max-Age=1209600; SameSite=lax")]
    ∧ redis_log w1 = redis_log world0
    ∧ redis_db w1 = redis_db world0.
Proof.
  destruct (X8_unserialisable_context_still_sets_cookie (P:=store_up)
              default_mw (Some "abc") (PDict [("avatar", PBytes "png")])
              response_start world0 TypeError)
    as (m' & w1 & Hs & Hh & _ & Hlog & Hdb); try reflexivity.
  exists m', w1. split; [exact Hs|]. split; [exact Hh|].
  split; [exact Hlog | exact Hdb].
Defined.

Lemma X9_witness :
  ∃ m' w',
    call (P:=store_up) default_mw abc_scope reads_only alice_world
    = (Ok [m'; response_body], w')
    ∧ msg_headers m'
      = [("content-type", "text/html");
         ("set-cookie",
          "session=" +:+ cookie_abc
          +:+ "; Path=/; HttpOnly; Max-Age=1209600; SameSite=lax")]
    ∧ redis_log w'
      = [OpGet "session:abc"; OpSetex "session:abc" 1209600 alice_json].
Proof.
  destruct (X9_untouched_session_is_rewritten (P:=store_up) default_mw
              abc_scope reads_only alice_world cookie_abc "abc" alice_json
              SESSION_TTL alice alice_json response_start
              [Send response_body])
    as (m' & w' & Hcall & _ & _ & Hh & _ & _ & Hlog); try reflexivity.
  { repeat constructor. discriminate. }
  exists m', w'. split; [exact Hcall|]. split; [exact Hh | exact Hlog].
Defined.

Lemma X3_witness :
  ∃ msgs w',
    call (P:=store_up) default_mw abc_scope logs_out alice_world
    = (Ok msgs, w')
    ∧ redis_log w' = [OpGet "session:abc"; OpDelete "session:abc"].
Proof.
  destruct (X3_store_calls_of_a_request (P:=store_up) default_mw abc_scope
              logs_out alice_world)
    as (sid & data & w1 & msgs & w' & writes & Hload & _ & _ & Hcall & _);
    [reflexivity|].
  exists msgs, w'. split; [exact Hcall|].
  vm_compute in Hcall. injection Hcall as _ <-. reflexivity.
Defined.

Lemma X10_witness :
  Handlers.require_admin empty_dict
  = Handlers.Fail (Handlers.HTTPException 401 "Not authenticated").
Proof.
  refine (proj1 (proj2 (proj2 (X10_anonymous_session_gets_401 [] _)))).
  left. reflexivity.
Defined.

Lemma X12_witness :
  Handlers.get_user_roles bare_session = Handlers.Done (PList []).
Proof.
  refine (proj1 (X12_missing_role_claims_mean_no_roles
                   [("user", user_bob);
                    ("token", PDict [("access_token", PStr "h.p.s")])] _)).
  right. eexists. split; [reflexivity|]. left. reflexivity.
Defined.

Lemma X13_witness :
  Handlers.get_user_roles (PDict [("user", user_bob); ("token", PNone)])
  = Handlers.Fail Handlers.AttributeError.
Proof.
  refine (proj1 (X13_non_dict_token_raises
                   [("user", user_bob); ("token", PNone)] PNone _ _)).
  - reflexivity.
  - intros items. discriminate.
Defined.

Lemma X14_witness :
  Handlers.require_admin (session_of (PStr "nonadmin"))
  = Handlers.Done user_bob.
Proof.
  apply (X14_string_roles_match_by_substring (session_of (PStr "nonadmin"))
           user_bob "nonadmin"); reflexivity.
Defined.

Lemma X16_witness :
  Handlers._decode_jwt_payload (P:=claims_platform) toy_b64decode "h.p"
  = PDict [].
Proof.
  apply (X16_jwt_needs_three_parts (P:=claims_platform) toy_b64decode "h.p").
  vm_compute. discriminate.
Defined.

Lemma X18_witness :
  Handlers._decode_jwt_payload (P:=claims_platform) toy_b64decode "h.p.s"
  = Handlers._decode_jwt_payload (P:=claims_platform) toy_b64decode
      "forged.p.anything".
Proof.
  apply (X18_jwt_signature_is_not_checked (P:=claims_platform) toy_b64decode
           "h" "s" "forged" "anything" "p"); reflexivity.
Defined.

Lemma X19_witness :
  ∃ session',
    Handlers.api_callback (P:=claims_platform) toy_b64decode settings
                          token_response empty_dict
    = (Handlers.Done "http://localhost:5173", session')
    ∧ Handlers.get_user_roles session' = Handlers.Done (PList [PStr "admin"]).
Proof.
  destruct (X19_callback_logs_the_user_in (P:=claims_platform) toy_b64decode
              settings
              [("access_token", PStr "h.p.s");
               ("userinfo", PDict [("sub", PStr "kc-bob");
                                   ("preferred_username", PStr "bob")])]
              [("sub", PStr "kc-bob"); ("preferred_username", PStr "bob")]
              [("resource_access", roles_claim (PList [PStr "admin"]))]
              [] "h.p.s")
    as (session' & Hcall & _ & Hroles); try reflexivity.
  exists session'. split; [exact Hcall | exact Hroles].
Defined.



(** Bob, a student, asks for Eve's row. *)
Lemma X22_witness :
  Handlers.student_detail 2 student_session school
  = Handlers.Fail (Handlers.HTTPException 403 "Access denied").
Proof.
  apply (X22_student_detail_access_rule 2 student_session school
           [("sub", PStr "kc-bob"); ("email", PStr "bob@example.org");
            ("name", PStr "Bob"); ("preferred_username", PStr "bob")]
           [PStr "student"]); reflexivity.
Defined.
